(** * bioutils.digests: sequence normalisation and digests

    A shallow embedding of [src/bioutils/digests.py] (read with Python 3
    semantics) together with the library calls it makes: [str.encode],
    [re.sub] on a character class, [bytes.upper], [hashlib.md5],
    [hashlib.sha1], [hashlib.sha512], [base64.b64encode],
    [base64.urlsafe_b64encode], [bytes.decode("ascii")], [str.rstrip] and
    slicing.  Bytes are [list byte]; text is a list of code points. *)

From Stdlib Require Import Strings.Byte Strings.String Strings.Ascii.
From Stdlib Require Import ZArith NArith List Bool Lia.
From Stdlib Require Import Relations.Relation_Operators.
Import ListNotations.

Set Implicit Arguments.

(** ** Python values, exceptions and results *)

Inductive exn : Set :=
| UnicodeEncodeError
| UnicodeDecodeError
| TypeError.

Inductive result (A : Type) : Type :=
| Ok (a : A)
| Raise (e : exn).

Arguments Ok {A} a.
Arguments Raise {A} e.

Definition bind {A B : Type} (r : result A) (k : A -> result B) : result B :=
  match r with
  | Ok a => k a
  | Raise e => Raise e
  end.

Notation "x <- r ;; k" := (bind r (fun x => k))
  (at level 61, r at next level, right associativity).

Definition succeeds {A : Type} (r : result A) : Prop := exists a, r = Ok a.

(** [bytes] objects, and [str] objects as their sequence of code points. *)
Definition bytes : Set := list byte.
Definition str : Set := list N.

Inductive pyobj : Set :=
| PyBytes (b : bytes)
| PyStr (s : str).

(** A string literal of the source, as a [str] / as a [bytes] object. *)
Definition text (s : string) : str := map N_of_ascii (list_ascii_of_string s).
Definition btext (s : string) : bytes := list_byte_of_string s.

Definition byte_of_N (n : N) : byte :=
  match Byte.of_N (n mod 256) with
  | Some b => b
  | None => x00
  end.

Definition byte_of_Z (z : Z) : byte := byte_of_N (Z.to_N (z mod 256)).
Definition Z_of_byte (b : byte) : Z := Z.of_N (Byte.to_N b).

(** ** [str.encode()]: UTF-8, strict error handler *)

Definition is_surrogate (c : N) : bool := ((0xD800 <=? c) && (c <=? 0xDFFF))%N.

(** A code point that UTF-8 can encode: a Unicode scalar value. *)
Definition scalar_value (c : N) : bool := ((c <? 0x110000) && negb (is_surrogate c))%N.

Definition utf8_cont (c : N) (shift : N) : byte :=
  byte_of_N (N.lor 0x80 (N.land (N.shiftr c shift) 0x3F)).

Definition utf8_encode_char (c : N) : result bytes :=
  (if c <? 0x80 then Ok [byte_of_N c]
   else if c <? 0x800 then
     Ok [byte_of_N (N.lor 0xC0 (N.shiftr c 6)); utf8_cont c 0]
   else if c <? 0x10000 then
     if is_surrogate c then Raise UnicodeEncodeError
     else Ok [byte_of_N (N.lor 0xE0 (N.shiftr c 12)); utf8_cont c 6; utf8_cont c 0]
   else if c <? 0x110000 then
     Ok [byte_of_N (N.lor 0xF0 (N.shiftr c 18)); utf8_cont c 12; utf8_cont c 6;
         utf8_cont c 0]
   else Raise UnicodeEncodeError)%N.

Fixpoint str_encode (s : str) : result bytes :=
  match s with
  | [] => Ok []
  | c :: s' =>
      b <- utf8_encode_char c ;;
      rest <- str_encode s' ;;
      Ok (b ++ rest)
  end.

(** ** [re.sub] for a one-character class pattern, on bytes *)

Inductive class_item : Set :=
| CategorySpace            (* \s *)
| Literal (b : byte).      (* an (escaped) literal byte *)

(** [\s] in a bytes pattern: [ch <= 127 && Py_ISSPACE(ch)], whose table
    flags 0x09..0x0d and 0x20. *)
Definition Py_ISSPACE (b : byte) : bool :=
  let n := Byte.to_N b in (((9 <=? n) && (n <=? 13)) || (n =? 32))%N.

Definition item_matches (i : class_item) (b : byte) : bool :=
  match i with
  | CategorySpace => Py_ISSPACE b
  | Literal c => Byte.eqb c b
  end.

Definition class_matches (cls : list class_item) (b : byte) : bool :=
  existsb (fun i => item_matches i b) cls.

(** Scan left to right; a byte the class matches is replaced by [repl],
    any other byte is copied. *)
Fixpoint re_sub (cls : list class_item) (repl : bytes) (s : bytes) : bytes :=
  match s with
  | [] => []
  | b :: s' =>
      if class_matches cls b then repl ++ re_sub cls repl s'
      else b :: re_sub cls repl s'
  end.

(** ** [bytes.upper()] *)

Definition Py_TOUPPER (b : byte) : byte :=
  let n := Byte.to_N b in
  (if (97 <=? n) && (n <=? 122) then byte_of_N (n - 32) else b)%N.

Definition bytes_upper (s : bytes) : bytes := map Py_TOUPPER s.

(** ** Slicing [s[:stop]] *)

Definition slice_to {A : Type} (l : list A) (stop : Z) : list A :=
  let len := Z.of_nat (length l) in
  let stop' := (if stop <? 0 then Z.max 0 (len + stop) else Z.min stop len)%Z in
  firstn (Z.to_nat stop') l.

(** ** [bytes.decode("ascii")], [str.rstrip(chars)], [bytes.translate] *)

Fixpoint bytes_decode_ascii (b : bytes) : result str :=
  match b with
  | [] => Ok []
  | x :: b' =>
      if (Byte.to_N x <? 128)%N then
        s <- bytes_decode_ascii b' ;; Ok (Byte.to_N x :: s)
      else Raise UnicodeDecodeError
  end.

Definition mem_N (c : N) (chars : str) : bool := existsb (N.eqb c) chars.

Fixpoint drop_leading (chars : str) (s : str) : str :=
  match s with
  | [] => []
  | c :: s' => if mem_N c chars then drop_leading chars s' else s
  end.

Definition str_rstrip (chars : str) (s : str) : str :=
  rev (drop_leading chars (rev s)).

Definition bytes_translate (table : byte -> byte) (s : bytes) : bytes :=
  map table s.

(** ** Splitting a message into blocks *)

Fixpoint chunks_fuel {A : Type} (fuel : nat) (n : nat) (l : list A) : list (list A) :=
  match fuel with
  | O => []
  | S fuel' =>
      match l with
      | [] => []
      | _ => firstn n l :: chunks_fuel fuel' n (skipn n l)
      end
  end.

Definition chunks {A : Type} (n : nat) (l : list A) : list (list A) :=
  chunks_fuel (length l) n l.

(** Big-endian and little-endian readings of a list of byte values. *)
Definition be_word (l : list Z) : Z := fold_left (fun acc b => acc * 256 + b)%Z l 0%Z.
Definition le_word (l : list Z) : Z := fold_right (fun b acc => acc * 256 + b)%Z 0%Z l.

(** The [n] bytes of [x], most significant first / least significant first. *)
Fixpoint le_bytes (n : nat) (x : Z) : bytes :=
  match n with
  | O => []
  | S n' => byte_of_Z x :: le_bytes n' (Z.shiftr x 8)
  end.

Definition be_bytes (n : nat) (x : Z) : bytes := rev (le_bytes n x).

(** Message padding shared by MD5, SHA-1 and SHA-512: a 0x80 byte, zeros
    up to [block - lenbytes] modulo [block], then the bit length. *)
Definition pad_zeros (block lenbytes len : Z) : nat :=
  Z.to_nat ((block - lenbytes - 1 - len) mod block).

(** ** MD5 (RFC 1321) *)

Module MD5.
Local Open Scope Z_scope.

Definition w32 (x : Z) : Z := x mod 2 ^ 32.
Definition rotl (n x : Z) : Z := w32 (Z.lor (Z.shiftl x n) (Z.shiftr x (32 - n))).
Definition not32 (x : Z) : Z := Z.lxor x 0xffffffff.

Definition T : list Z :=
  [ 0xd76aa478; 0xe8c7b756; 0x242070db; 0xc1bdceee; 0xf57c0faf; 0x4787c62a;
    0xa8304613; 0xfd469501; 0x698098d8; 0x8b44f7af; 0xffff5bb1; 0x895cd7be;
    0x6b901122; 0xfd987193; 0xa679438e; 0x49b40821; 0xf61e2562; 0xc040b340;
    0x265e5a51; 0xe9b6c7aa; 0xd62f105d; 0x02441453; 0xd8a1e681; 0xe7d3fbc8;
    0x21e1cde6; 0xc33707d6; 0xf4d50d87; 0x455a14ed; 0xa9e3e905; 0xfcefa3f8;
    0x676f02d9; 0x8d2a4c8a; 0xfffa3942; 0x8771f681; 0x6d9d6122; 0xfde5380c;
    0xa4beea44; 0x4bdecfa9; 0xf6bb4b60; 0xbebfbc70; 0x289b7ec6; 0xeaa127fa;
    0xd4ef3085; 0x04881d05; 0xd9d4d039; 0xe6db99e5; 0x1fa27cf8; 0xc4ac5665;
    0xf4292244; 0x432aff97; 0xab9423a7; 0xfc93a039; 0x655b59c3; 0x8f0ccc92;
    0xffeff47d; 0x85845dd1; 0x6fa87e4f; 0xfe2ce6e0; 0xa3014314; 0x4e0811a1;
    0xf7537e82; 0xbd3af235; 0x2ad7d2bb; 0xeb86d391 ].

Definition S : list Z :=
  [ 7; 12; 17; 22; 7; 12; 17; 22; 7; 12; 17; 22; 7; 12; 17; 22;
    5; 9; 14; 20; 5; 9; 14; 20; 5; 9; 14; 20; 5; 9; 14; 20;
    4; 11; 16; 23; 4; 11; 16; 23; 4; 11; 16; 23; 4; 11; 16; 23;
    6; 10; 15; 21; 6; 10; 15; 21; 6; 10; 15; 21; 6; 10; 15; 21 ].

Record state : Set := mk { a : Z; b : Z; c : Z; d : Z }.

Definition init : state := mk 0x67452301 0xefcdab89 0x98badcfe 0x10325476.

Definition round_fun (i : Z) (x y z : Z) : Z :=
  if i <? 16 then Z.lor (Z.land x y) (Z.land (not32 x) z)
  else if i <? 32 then Z.lor (Z.land x z) (Z.land y (not32 z))
  else if i <? 48 then Z.lxor x (Z.lxor y z)
  else Z.lxor y (Z.lor x (not32 z)).

Definition msg_index (i : Z) : Z :=
  if i <? 16 then i
  else if i <? 32 then (5 * i + 1) mod 16
  else if i <? 48 then (3 * i + 5) mod 16
  else (7 * i) mod 16.

Definition step (X : list Z) (st : state) (i : nat) : state :=
  let iz := Z.of_nat i in
  let f := round_fun iz (b st) (c st) (d st) in
  let x := nth (Z.to_nat (msg_index iz)) X 0 in
  let sum := w32 (a st + f + x + nth i T 0) in
  mk (d st) (w32 (b st + rotl (nth i S 0) sum)) (b st) (c st).

Definition compress (st : state) (block : list Z) : state :=
  let X := map le_word (chunks 4 block) in
  let st' := fold_left (step X) (seq 0 64) st in
  mk (w32 (a st + a st')) (w32 (b st + b st')) (w32 (c st + c st')) (w32 (d st + d st')).

Definition pad (msg : bytes) : list Z :=
  let len := Z.of_nat (length msg) in
  map Z_of_byte msg ++ [0x80] ++ repeat 0 (pad_zeros 64 8 len)
    ++ map Z_of_byte (le_bytes 8 (8 * len)).

Definition digest (msg : bytes) : bytes :=
  let st := fold_left compress (chunks 64 (pad msg)) init in
  le_bytes 4 (a st) ++ le_bytes 4 (b st) ++ le_bytes 4 (c st) ++ le_bytes 4 (d st).

End MD5.

(** ** SHA-1 (FIPS 180-4) *)

Module SHA1.
Local Open Scope Z_scope.

Definition w32 (x : Z) : Z := x mod 2 ^ 32.
Definition rotl (n x : Z) : Z := w32 (Z.lor (Z.shiftl x n) (Z.shiftr x (32 - n))).
Definition not32 (x : Z) : Z := Z.lxor x 0xffffffff.

Record state : Set := mk { h0 : Z; h1 : Z; h2 : Z; h3 : Z; h4 : Z }.

Definition init : state :=
  mk 0x67452301 0xefcdab89 0x98badcfe 0x10325476 0xc3d2e1f0.

Definition f (t : nat) (x y z : Z) : Z :=
  if (t <? 20)%nat then Z.lor (Z.land x y) (Z.land (not32 x) z)
  else if (t <? 40)%nat then Z.lxor x (Z.lxor y z)
  else if (t <? 60)%nat then Z.lor (Z.land x y) (Z.lor (Z.land x z) (Z.land y z))
  else Z.lxor x (Z.lxor y z).

Definition K (t : nat) : Z :=
  if (t <? 20)%nat then 0x5a827999
  else if (t <? 40)%nat then 0x6ed9eba1
  else if (t <? 60)%nat then 0x8f1bbcdc
  else 0xca62c1d6.

(** The message schedule as a sliding window of sixteen words: the head
    is W(t); W(t+16) = ROTL1 (W(t+13) xor W(t+8) xor W(t+2) xor W(t)). *)
Definition next_w (win : list Z) : Z :=
  rotl 1 (Z.lxor (Z.lxor (nth 13 win 0) (nth 8 win 0))
                 (Z.lxor (nth 2 win 0) (nth 0 win 0))).

Definition step (acc : state * list Z) (t : nat) : state * list Z :=
  let (st, win) := acc in
  let wt := nth 0 win 0 in
  let tmp := w32 (rotl 5 (h0 st) + f t (h1 st) (h2 st) (h3 st) + h4 st + K t + wt) in
  (mk tmp (h0 st) (rotl 30 (h1 st)) (h2 st) (h3 st), tl win ++ [next_w win]).

Definition compress (st : state) (block : list Z) : state :=
  let W := map be_word (chunks 4 block) in
  let st' := fst (fold_left step (seq 0 80) (st, W)) in
  mk (w32 (h0 st + h0 st')) (w32 (h1 st + h1 st')) (w32 (h2 st + h2 st'))
     (w32 (h3 st + h3 st')) (w32 (h4 st + h4 st')).

Definition pad (msg : bytes) : list Z :=
  let len := Z.of_nat (length msg) in
  map Z_of_byte msg ++ [0x80] ++ repeat 0 (pad_zeros 64 8 len)
    ++ map Z_of_byte (be_bytes 8 (8 * len)).

Definition digest (msg : bytes) : bytes :=
  let st := fold_left compress (chunks 64 (pad msg)) init in
  be_bytes 4 (h0 st) ++ be_bytes 4 (h1 st) ++ be_bytes 4 (h2 st)
    ++ be_bytes 4 (h3 st) ++ be_bytes 4 (h4 st).

End SHA1.

(** ** SHA-512 (FIPS 180-4) *)

Module SHA512.
Local Open Scope Z_scope.

Definition w64 (x : Z) : Z := x mod 2 ^ 64.
Definition rotr (n x : Z) : Z := w64 (Z.lor (Z.shiftr x n) (Z.shiftl x (64 - n))).
Definition not64 (x : Z) : Z := Z.lxor x 0xffffffffffffffff.

Definition Ch (x y z : Z) : Z := Z.lxor (Z.land x y) (Z.land (not64 x) z).
Definition Maj (x y z : Z) : Z :=
  Z.lxor (Z.land x y) (Z.lxor (Z.land x z) (Z.land y z)).
Definition Sigma0 (x : Z) : Z := Z.lxor (rotr 28 x) (Z.lxor (rotr 34 x) (rotr 39 x)).
Definition Sigma1 (x : Z) : Z := Z.lxor (rotr 14 x) (Z.lxor (rotr 18 x) (rotr 41 x)).
Definition sigma0 (x : Z) : Z := Z.lxor (rotr 1 x) (Z.lxor (rotr 8 x) (Z.shiftr x 7)).
Definition sigma1 (x : Z) : Z := Z.lxor (rotr 19 x) (Z.lxor (rotr 61 x) (Z.shiftr x 6)).

Definition K : list Z :=
  [ 0x428a2f98d728ae22; 0x7137449123ef65cd; 0xb5c0fbcfec4d3b2f;
    0xe9b5dba58189dbbc; 0x3956c25bf348b538; 0x59f111f1b605d019;
    0x923f82a4af194f9b; 0xab1c5ed5da6d8118; 0xd807aa98a3030242;
    0x12835b0145706fbe; 0x243185be4ee4b28c; 0x550c7dc3d5ffb4e2;
    0x72be5d74f27b896f; 0x80deb1fe3b1696b1; 0x9bdc06a725c71235;
    0xc19bf174cf692694; 0xe49b69c19ef14ad2; 0xefbe4786384f25e3;
    0x0fc19dc68b8cd5b5; 0x240ca1cc77ac9c65; 0x2de92c6f592b0275;
    0x4a7484aa6ea6e483; 0x5cb0a9dcbd41fbd4; 0x76f988da831153b5;
    0x983e5152ee66dfab; 0xa831c66d2db43210; 0xb00327c898fb213f;
    0xbf597fc7beef0ee4; 0xc6e00bf33da88fc2; 0xd5a79147930aa725;
    0x06ca6351e003826f; 0x142929670a0e6e70; 0x27b70a8546d22ffc;
    0x2e1b21385c26c926; 0x4d2c6dfc5ac42aed; 0x53380d139d95b3df;
    0x650a73548baf63de; 0x766a0abb3c77b2a8; 0x81c2c92e47edaee6;
    0x92722c851482353b; 0xa2bfe8a14cf10364; 0xa81a664bbc423001;
    0xc24b8b70d0f89791; 0xc76c51a30654be30; 0xd192e819d6ef5218;
    0xd69906245565a910; 0xf40e35855771202a; 0x106aa07032bbd1b8;
    0x19a4c116b8d2d0c8; 0x1e376c085141ab53; 0x2748774cdf8eeb99;
    0x34b0bcb5e19b48a8; 0x391c0cb3c5c95a63; 0x4ed8aa4ae3418acb;
    0x5b9cca4f7763e373; 0x682e6ff3d6b2b8a3; 0x748f82ee5defb2fc;
    0x78a5636f43172f60; 0x84c87814a1f0ab72; 0x8cc702081a6439ec;
    0x90befffa23631e28; 0xa4506cebde82bde9; 0xbef9a3f7b2c67915;
    0xc67178f2e372532b; 0xca273eceea26619c; 0xd186b8c721c0c207;
    0xeada7dd6cde0eb1e; 0xf57d4f7fee6ed178; 0x06f067aa72176fba;
    0x0a637dc5a2c898a6; 0x113f9804bef90dae; 0x1b710b35131c471b;
    0x28db77f523047d84; 0x32caab7b40c72493; 0x3c9ebe0a15c9bebc;
    0x431d67c49c100d4c; 0x4cc5d4becb3e42b6; 0x597f299cfc657e2a;
    0x5fcb6fab3ad6faec; 0x6c44198c4a475817 ].

Record state : Set :=
  mk { ha : Z; hb : Z; hc : Z; hd : Z; he : Z; hf : Z; hg : Z; hh : Z }.

Definition init : state :=
  mk 0x6a09e667f3bcc908 0xbb67ae8584caa73b 0x3c6ef372fe94f82b
     0xa54ff53a5f1d36f1 0x510e527fade682d1 0x9b05688c2b3e6c1f
     0x1f83d9abfb41bd6b 0x5be0cd19137e2179.

(** Sliding window of sixteen schedule words; the head is W(t) and
    W(t+16) = sigma1 W(t+14) + W(t+9) + sigma0 W(t+1) + W(t). *)
Definition next_w (win : list Z) : Z :=
  w64 (sigma1 (nth 14 win 0) + nth 9 win 0 + sigma0 (nth 1 win 0) + nth 0 win 0).

Definition step (acc : state * list Z) (t : nat) : state * list Z :=
  let (st, win) := acc in
  let wt := nth 0 win 0 in
  let t1 := w64 (hh st + Sigma1 (he st) + Ch (he st) (hf st) (hg st) + nth t K 0 + wt) in
  let t2 := w64 (Sigma0 (ha st) + Maj (ha st) (hb st) (hc st)) in
  (mk (w64 (t1 + t2)) (ha st) (hb st) (hc st) (w64 (hd st + t1)) (he st) (hf st) (hg st),
   tl win ++ [next_w win]).

Definition compress (st : state) (block : list Z) : state :=
  let W := map be_word (chunks 8 block) in
  let st' := fst (fold_left step (seq 0 80) (st, W)) in
  mk (w64 (ha st + ha st')) (w64 (hb st + hb st')) (w64 (hc st + hc st'))
     (w64 (hd st + hd st')) (w64 (he st + he st')) (w64 (hf st + hf st'))
     (w64 (hg st + hg st')) (w64 (hh st + hh st')).

Definition pad (msg : bytes) : list Z :=
  let len := Z.of_nat (length msg) in
  map Z_of_byte msg ++ [0x80] ++ repeat 0 (pad_zeros 128 16 len)
    ++ map Z_of_byte (be_bytes 16 (8 * len)).

Definition digest (msg : bytes) : bytes :=
  let st := fold_left compress (chunks 128 (pad msg)) init in
  be_bytes 8 (ha st) ++ be_bytes 8 (hb st) ++ be_bytes 8 (hc st) ++ be_bytes 8 (hd st)
    ++ be_bytes 8 (he st) ++ be_bytes 8 (hf st) ++ be_bytes 8 (hg st) ++ be_bytes 8 (hh st).

End SHA512.

(** ** [hashlib]: constructors accept bytes only *)

Definition hashlib_md5 (data : pyobj) : result bytes :=
  match data with
  | PyBytes b => Ok (MD5.digest b)
  | PyStr _ => Raise TypeError
  end.

Definition hashlib_sha1 (data : pyobj) : result bytes :=
  match data with
  | PyBytes b => Ok (SHA1.digest b)
  | PyStr _ => Raise TypeError
  end.

Definition hashlib_sha512 (data : pyobj) : result bytes :=
  match data with
  | PyBytes b => Ok (SHA512.digest b)
  | PyStr _ => Raise TypeError
  end.

(** [.hexdigest()]: two lowercase hexadecimal digits per digest byte. *)
Definition hex_digits : str := text "0123456789abcdef".

Definition hex_digit (n : N) : N := nth (N.to_nat n) hex_digits 0%N.

Definition hexlify (b : bytes) : str :=
  flat_map (fun x => [hex_digit (Byte.to_N x / 16); hex_digit (Byte.to_N x mod 16)]%N) b.

(** ** [base64] *)

Definition table_b2a_base64 : bytes :=
  btext "ABCDEFGHIJKLMNOPQRSTUVWXYZabcdefghijklmnopqrstuvwxyz0123456789+/".

Definition table_urlsafe : bytes :=
  btext "ABCDEFGHIJKLMNOPQRSTUVWXYZabcdefghijklmnopqrstuvwxyz0123456789-_".

Definition BASE64_PAD : byte := "="%byte.

Definition sextet (x shift : N) : N := N.land (N.shiftr x shift) 0x3f.

Section Base64.
Variable table : bytes.

Definition b64_char (i : N) : byte := nth (N.to_nat i) table x00.

(** Three input bytes give four characters; a final group of one or two
    bytes is completed with [=]. *)
Fixpoint b2a_base64 (s : bytes) : bytes :=
  match s with
  | [] => []
  | [a] =>
      let x := Byte.to_N a in
      [b64_char (sextet x 2); b64_char (N.shiftl (N.land x 0x3) 4);
       BASE64_PAD; BASE64_PAD]
  | [a; b] =>
      let x := (Byte.to_N a * 256 + Byte.to_N b)%N in
      [b64_char (sextet x 10); b64_char (sextet x 4);
       b64_char (N.shiftl (N.land x 0xf) 2); BASE64_PAD]
  | a :: b :: c :: rest =>
      let x := (Byte.to_N a * 65536 + Byte.to_N b * 256 + Byte.to_N c)%N in
      b64_char (sextet x 18) :: b64_char (sextet x 12) :: b64_char (sextet x 6)
        :: b64_char (sextet x 0) :: b2a_base64 rest
  end.
End Base64.

Definition b64encode (s : bytes) : bytes := b2a_base64 table_b2a_base64 s.

(** [bytes.maketrans(b'+/', b'-_')] *)
Definition _urlsafe_encode_translation (b : byte) : byte :=
  if Byte.eqb b "+"%byte then "-"%byte
  else if Byte.eqb b "/"%byte then "_"%byte
  else b.

Definition urlsafe_b64encode (s : bytes) : bytes :=
  bytes_translate _urlsafe_encode_translation (b64encode s).

(** ** The module [bioutils.digests] *)

Definition _to_binary (s : pyobj) : result bytes :=
  match s with
  | PyBytes b => Ok b
  | PyStr t => str_encode t
  end.

(** The pattern [b"[\s\*]"]. *)
Definition whitespace_or_star : list class_item := [CategorySpace; Literal "*"%byte].

Definition normalize_sequence (seq : pyobj) : result bytes :=
  seq <- _to_binary seq ;;
  Ok (bytes_upper (re_sub whitespace_or_star [] seq)).

(** [normalize_sequence(seq) if normalize else seq] *)
Definition normalize_if (normalize : bool) (seq : bytes) : result bytes :=
  if normalize then normalize_sequence (PyBytes seq) else Ok seq.

Definition seq_seguid (seq : pyobj) (normalize : bool) : result str :=
  seq <- _to_binary seq ;;
  seq <- normalize_if normalize seq ;;
  digest <- hashlib_sha1 (PyBytes seq) ;;
  s <- bytes_decode_ascii (b64encode digest) ;;
  Ok (str_rstrip (text "=") s).

Definition sha512t (data : pyobj) (digest_size : Z) : result str :=
  digest <- hashlib_sha512 data ;;
  bytes_decode_ascii (urlsafe_b64encode (slice_to digest digest_size)).

(** The [digest_size] argument is accepted, and 24 is what is passed on. *)
Definition seq_seqhash (seq : pyobj) (normalize : bool) (digest_size : Z) : result str :=
  seq <- _to_binary seq ;;
  seq <- normalize_if normalize seq ;;
  sha512t (PyBytes seq) 24.

Definition seq_md5 (seq : pyobj) (normalize : bool) : result str :=
  seq <- _to_binary seq ;;
  seq <- normalize_if normalize seq ;;
  digest <- hashlib_md5 (PyBytes seq) ;;
  Ok (hexlify digest).

Definition seq_sha1 (seq : pyobj) (normalize : bool) : result str :=
  seq <- _to_binary seq ;;
  seq <- normalize_if normalize seq ;;
  digest <- hashlib_sha1 (PyBytes seq) ;;
  Ok (hexlify digest).

Definition seq_sha512 (seq : pyobj) (normalize : bool) : result str :=
  seq <- _to_binary seq ;;
  seq <- normalize_if normalize seq ;;
  digest <- hashlib_sha512 (PyBytes seq) ;;
  Ok (hexlify digest).

(** Default arguments of the signatures. *)
Definition default_normalize : bool := true.
Definition default_digest_size : Z := 24.

(** * Vocabulary of the specification *)

(** The six ASCII whitespace characters: space, tab, newline, carriage
    return, form feed, vertical tab. *)
Definition ascii_whitespace : bytes := [x20; x09; x0a; x0d; x0c; x0b].

Definition is_ascii_whitespace (b : byte) : bool := existsb (Byte.eqb b) ascii_whitespace.

(** A byte the Normalizer deletes: ASCII whitespace or [*]. *)
Definition is_deleted (b : byte) : bool :=
  is_ascii_whitespace b || Byte.eqb b "*"%byte.

Definition ascii_lowercase : bytes := btext "abcdefghijklmnopqrstuvwxyz".
Definition ascii_uppercase : bytes := btext "ABCDEFGHIJKLMNOPQRSTUVWXYZ".

Fixpoint assoc_byte (table : list (byte * byte)) (b : byte) : option byte :=
  match table with
  | [] => None
  | (k, v) :: table' => if Byte.eqb k b then Some v else assoc_byte table' b
  end.

(** Upper-casing of the ASCII letters a-z; every other byte is unchanged. *)
Definition ascii_upper (b : byte) : byte :=
  match assoc_byte (combine ascii_lowercase ascii_uppercase) b with
  | Some u => u
  | None => b
  end.

Definition is_ascii_letter (b : byte) : bool :=
  existsb (Byte.eqb b) (ascii_lowercase ++ ascii_uppercase).

Definition remove_deleted (b : bytes) : bytes :=
  filter (fun x => negb (is_deleted x)) b.

(** The canonical form in the specification's words: delete, then fold case. *)
Definition canonical_form (b : bytes) : bytes := map ascii_upper (remove_deleted b).

(** [l] is [l'] with some elements deleted, the others in their order. *)
Inductive subseq {A : Type} : list A -> list A -> Prop :=
| subseq_nil : subseq [] []
| subseq_drop x l l' : subseq l l' -> subseq l (x :: l')
| subseq_keep x l l' : subseq l l' -> subseq (x :: l) (x :: l').

(** The bytes a digest function hashes for coerced input [b]. *)
Definition hashed_bytes (normalize : bool) (b : bytes) : bytes :=
  if normalize then canonical_form b else b.

(** ** Edits that leave a sequence's identity unchanged

    One edit inserts or removes a whitespace or [*] character at any
    position, or changes the case of one ASCII letter. *)

Section Edits.
Variable A : Type.
Variable removable : A -> bool.
Variable case_variant : A -> A -> bool.

Inductive edit : list A -> list A -> Prop :=
| edit_insert pre c post :
    removable c = true -> edit (pre ++ post) (pre ++ c :: post)
| edit_remove pre c post :
    removable c = true -> edit (pre ++ c :: post) (pre ++ post)
| edit_case pre c c' post :
    case_variant c c' = true -> edit (pre ++ c :: post) (pre ++ c' :: post).
End Edits.

Definition case_variant_byte (b b' : byte) : bool :=
  is_ascii_letter b && is_ascii_letter b' && Byte.eqb (ascii_upper b) (ascii_upper b').

Definition is_ascii (c : N) : bool := (c <? 128)%N.

Definition removable_char (c : N) : bool := is_ascii c && is_deleted (byte_of_N c).

Definition case_variant_char (c c' : N) : bool :=
  is_ascii c && is_ascii c' && case_variant_byte (byte_of_N c) (byte_of_N c').

Inductive seq_edit : pyobj -> pyobj -> Prop :=
| seq_edit_bytes b b' :
    edit is_deleted case_variant_byte b b' -> seq_edit (PyBytes b) (PyBytes b')
| seq_edit_str s s' :
    edit removable_char case_variant_char s s' -> seq_edit (PyStr s) (PyStr s').

(** Any number of edits. *)
Definition seq_edits : pyobj -> pyobj -> Prop := clos_refl_trans pyobj seq_edit.

(** ** Digest texts in the specification's words *)

Definition ascii_text (b : bytes) : str := map Byte.to_N b.

Definition EQUALS : N := 61.

(** seguid: standard-alphabet base64 of the SHA-1 digest, padding removed. *)
Definition seguid_of (data : bytes) : str :=
  str_rstrip [EQUALS] (ascii_text (b2a_base64 table_b2a_base64 (SHA1.digest data))).

(** seqhash: URL-safe-alphabet base64 of the first [size] bytes of the
    SHA-512 digest, padding kept. *)
Definition seqhash_of (data : bytes) (size : nat) : str :=
  ascii_text (b2a_base64 table_urlsafe (firstn size (SHA512.digest data))).

(** Number of [=] characters that complete the encoding of [n] bytes. *)
Definition pad_count (n : nat) : nat := (3 - n mod 3) mod 3.

(** Length of the padded base64 encoding of [n] bytes. *)
Definition b64_length (n : nat) : nat := 4 * ((n + 2) / 3).

(** An alphabet character: 7-bit, and not the padding character. *)
Definition alphabet_char (b : byte) : bool :=
  (Byte.to_N b <? 128)%N && negb (Byte.eqb b BASE64_PAD).

Definition is_ascii_lower (b : byte) : bool := existsb (Byte.eqb b) ascii_lowercase.

(** Text that [str.encode()] accepts: every code point a scalar value. *)
Definition encodable (s : str) : bool := forallb scalar_value s.

(** An input the byte coercion accepts: any bytes, and encodable text. *)
Definition coercible (x : pyobj) : Prop :=
  match x with
  | PyBytes _ => True
  | PyStr s => encodable s = true
  end.

Definition is_bytes (x : pyobj) : Prop := exists b, x = PyBytes b.

(** ** Vocabulary of the further properties *)

(** [p] is an initial segment of [l]. *)
Definition is_prefix {A : Type} (p l : list A) : Prop := exists rest, l = p ++ rest.

(** Any number of byte edits. *)
Definition bytes_edits : bytes -> bytes -> Prop :=
  clos_refl_trans bytes (edit is_deleted case_variant_byte).

(** The Normalizer read on code points: drop the ASCII whitespace and [*]
    characters, move a-z to A-Z, leave every other character alone. *)
Definition upper_char (c : N) : N :=
  (if (97 <=? c) && (c <=? 122) then c - 32 else c)%N.

Definition normalize_text (s : str) : str :=
  map upper_char (filter (fun c => negb (removable_char c)) s).

(** A byte of a canonical form: not whitespace, not [*], not a-z. *)
Definition canonical_byte (b : byte) : bool :=
  negb (is_deleted b) && negb (is_ascii_lower b).

(** Characters outside 7-bit ASCII are those [str.encode] spreads over
    several bytes. *)
Definition ascii_str (s : str) : bool := forallb is_ascii s.

(** Position of a character in an alphabet (64 when it is not there). *)
Fixpoint b64_index (table : bytes) (c : byte) : N :=
  match table with
  | [] => 0%N
  | t :: table' => if Byte.eqb t c then 0%N else N.succ (b64_index table' c)
  end.

(** A byte outside 7-bit ASCII. *)
Definition high_byte (b : byte) : bool := (128 <=? Byte.to_N b)%N.

(** The way a coercing function ends: a result, or [UnicodeEncodeError]
    for a text that holds a code point UTF-8 cannot encode. *)
Definition returns_or_encode_error {A : Type} (x : pyobj) (r : result A) : Prop :=
  (exists a, r = Ok a)
  \/ (r = Raise UnicodeEncodeError /\ exists s, x = PyStr s /\ encodable s = false).

Unset Implicit Arguments.

(** Split a conjunction into its conjuncts (and nothing else). *)
Ltac split_conj := repeat match goal with |- _ /\ _ => split end.


(** * Properties of the Normalizer *)

(** ** Facts about single bytes, by inspection of the 256 bytes *)

Lemma class_matches_is_deleted (b : byte) :
  class_matches whitespace_or_star b = is_deleted b.
Proof. destruct b; reflexivity. Qed.

Lemma Py_TOUPPER_ascii_upper (b : byte) : Py_TOUPPER b = ascii_upper b.
Proof. destruct b; reflexivity. Qed.

Lemma ascii_upper_idem (b : byte) : ascii_upper (ascii_upper b) = ascii_upper b.
Proof. destruct b; reflexivity. Qed.

Lemma is_deleted_upper (b : byte) : is_deleted (ascii_upper b) = is_deleted b.
Proof. destruct b; reflexivity. Qed.

Lemma letter_not_deleted (b : byte) : is_ascii_letter b = true -> is_deleted b = false.
Proof. destruct b; simpl; intro H; try reflexivity; discriminate H. Qed.

Lemma byte_eqb_eq (a b : byte) : Byte.eqb a b = true -> a = b.
Proof. intro H. apply Byte.byte_dec_bl. exact H. Qed.

(** ** The source's pipeline is the canonical form *)

Lemma re_sub_remove_deleted (b : bytes) :
  re_sub whitespace_or_star [] b = remove_deleted b.
Proof.
  unfold remove_deleted.
  induction b as [|x b IH]; [reflexivity|].
  cbn [re_sub filter]. rewrite class_matches_is_deleted.
  destruct (is_deleted x); cbn [negb app]; rewrite IH; reflexivity.
Qed.

Lemma bytes_upper_map (b : bytes) : bytes_upper b = map ascii_upper b.
Proof. unfold bytes_upper. apply map_ext. exact Py_TOUPPER_ascii_upper. Qed.

Lemma normalize_sequence_bytes (b : bytes) :
  normalize_sequence (PyBytes b) = Ok (canonical_form b).
Proof.
  unfold normalize_sequence, canonical_form; simpl.
  rewrite re_sub_remove_deleted, bytes_upper_map. reflexivity.
Qed.

Lemma normalize_sequence_eq (x : pyobj) :
  normalize_sequence x = (b <- _to_binary x ;; Ok (canonical_form b)).
Proof.
  destruct x as [b|s]; [apply normalize_sequence_bytes|].
  unfold normalize_sequence; simpl.
  destruct (str_encode s) as [b|e]; simpl; [|reflexivity].
  rewrite re_sub_remove_deleted, bytes_upper_map. reflexivity.
Qed.

Lemma normalize_if_eq (normalize : bool) (b : bytes) :
  normalize_if normalize b = Ok (hashed_bytes normalize b).
Proof.
  destruct normalize; simpl; [apply normalize_sequence_bytes | reflexivity].
Qed.

Lemma remove_deleted_app (l1 l2 : bytes) :
  remove_deleted (l1 ++ l2) = remove_deleted l1 ++ remove_deleted l2.
Proof. apply filter_app. Qed.

Lemma canonical_form_app (l1 l2 : bytes) :
  canonical_form (l1 ++ l2) = canonical_form l1 ++ canonical_form l2.
Proof. unfold canonical_form. rewrite remove_deleted_app. apply map_app. Qed.

Lemma canonical_form_cons_deleted (x : byte) (l : bytes) :
  is_deleted x = true -> canonical_form (x :: l) = canonical_form l.
Proof. intro H. unfold canonical_form; simpl. rewrite H. reflexivity. Qed.

Lemma canonical_form_cons_kept (x : byte) (l : bytes) :
  is_deleted x = false -> canonical_form (x :: l) = ascii_upper x :: canonical_form l.
Proof. intro H. unfold canonical_form; simpl. rewrite H. reflexivity. Qed.

Lemma canonical_form_idem (b : bytes) :
  canonical_form (canonical_form b) = canonical_form b.
Proof.
  induction b as [|x b IH]; [reflexivity|].
  destruct (is_deleted x) eqn:Hx.
  - rewrite canonical_form_cons_deleted by exact Hx. exact IH.
  - rewrite canonical_form_cons_kept by exact Hx.
    rewrite canonical_form_cons_kept by (rewrite is_deleted_upper; exact Hx).
    rewrite ascii_upper_idem, IH. reflexivity.
Qed.

Lemma subseq_remove_deleted (b : bytes) : subseq (remove_deleted b) b.
Proof.
  induction b as [|x b IH]; simpl; [constructor|].
  destruct (is_deleted x); simpl; constructor; exact IH.
Qed.

Lemma subseq_length {A : Type} (l l' : list A) : subseq l l' -> length l <= length l'.
Proof. induction 1; simpl; lia. Qed.

Lemma In_remove_deleted (b : bytes) (y : byte) :
  In y (remove_deleted b) <-> In y b /\ is_deleted y = false.
Proof.
  unfold remove_deleted. rewrite filter_In.
  destruct (is_deleted y); simpl; intuition congruence.
Qed.

(** C2. For every text-or-bytes input, [normalize_sequence] is the byte
    coercion followed by the canonical form of the specification: the
    bytes that are ASCII whitespace or [*] are deleted, the letters a-z are
    upper-cased.  The kept bytes are a subsequence of the coerced bytes
    (their order is preserved), they are exactly the bytes that are not
    deleted, and the result has one byte per kept byte. *)
Theorem normalize_sequence_spec (x : pyobj) :
  normalize_sequence x = (b <- _to_binary x ;; Ok (map ascii_upper (remove_deleted b)))
  /\ (forall b : bytes,
        subseq (remove_deleted b) b
        /\ (forall y, In y (remove_deleted b) <-> In y b /\ is_deleted y = false)
        /\ length (map ascii_upper (remove_deleted b)) = length (remove_deleted b))
  /\ (forall y, is_deleted y = true <-> In y (ascii_whitespace ++ ["*"%byte]))
  /\ (forall y, ascii_upper y <> y <-> In y ascii_lowercase).
Proof.
  split; [apply normalize_sequence_eq|].
  split.
  - intro b. split; [apply subseq_remove_deleted|].
    split; [apply In_remove_deleted | apply length_map].
  - split; intro y; destruct y; simpl; split; intro H;
      solve [ reflexivity | discriminate H | tauto | exfalso; apply H; reflexivity
            | intro E; discriminate E
            | repeat (destruct H as [H|H]; [discriminate H|]); destruct H ].
Qed.

(** C4. Normalization is idempotent: normalizing the bytes that
    [normalize_sequence] returned gives those bytes again (and when the
    coercion of a text input raises, so does the composition). *)
Theorem normalize_sequence_idempotent (x : pyobj) :
  (y <- normalize_sequence x ;; normalize_sequence (PyBytes y)) = normalize_sequence x.
Proof.
  rewrite normalize_sequence_eq.
  destruct (_to_binary x) as [b|e]; simpl; [|reflexivity].
  rewrite normalize_sequence_bytes, canonical_form_idem. reflexivity.
Qed.

(** ** Invariance under edits *)

Lemma str_encode_app (s1 s2 : str) :
  str_encode (s1 ++ s2) =
  (b1 <- str_encode s1 ;; b2 <- str_encode s2 ;; Ok (b1 ++ b2)).
Proof.
  induction s1 as [|c s1 IH]; simpl.
  - destruct (str_encode s2); reflexivity.
  - destruct (utf8_encode_char c) as [bc|e]; simpl; [|reflexivity].
    rewrite IH.
    destruct (str_encode s1) as [b1|e]; simpl; [|reflexivity].
    destruct (str_encode s2) as [b2|e]; simpl; [|reflexivity].
    rewrite app_assoc. reflexivity.
Qed.

Lemma utf8_encode_ascii (c : N) :
  is_ascii c = true -> utf8_encode_char c = Ok [byte_of_N c].
Proof.
  unfold is_ascii, utf8_encode_char. intro H.
  change 0x80%N with 128%N. rewrite H. reflexivity.
Qed.

Lemma str_encode_cons_ascii (c : N) (s : str) :
  is_ascii c = true ->
  str_encode (c :: s) = (b <- str_encode s ;; Ok (byte_of_N c :: b)).
Proof.
  intro H. simpl. rewrite (utf8_encode_ascii _ H). reflexivity.
Qed.

Lemma case_variant_upper (b b' : byte) :
  case_variant_byte b b' = true ->
  ascii_upper b = ascii_upper b' /\ is_deleted b = false /\ is_deleted b' = false.
Proof.
  unfold case_variant_byte. intro H.
  apply andb_prop in H. destruct H as [H Hu].
  apply andb_prop in H. destruct H as [Hb Hb'].
  split; [apply byte_eqb_eq; exact Hu|].
  split; apply letter_not_deleted; assumption.
Qed.

Lemma edit_bytes_canonical (b b' : bytes) :
  edit is_deleted case_variant_byte b b' -> canonical_form b = canonical_form b'.
Proof.
  intros [pre c post Hc | pre c post Hc | pre c c' post Hc];
    rewrite !canonical_form_app.
  - rewrite canonical_form_cons_deleted by exact Hc. reflexivity.
  - rewrite canonical_form_cons_deleted by exact Hc. reflexivity.
  - destruct (case_variant_upper _ _ Hc) as (Hu & Hd & Hd').
    rewrite !canonical_form_cons_kept by assumption.
    rewrite Hu. reflexivity.
Qed.

Lemma normalize_str_app (s1 s2 : str) :
  normalize_sequence (PyStr (s1 ++ s2)) =
  (b1 <- normalize_sequence (PyStr s1) ;;
   b2 <- normalize_sequence (PyStr s2) ;; Ok (b1 ++ b2)).
Proof.
  rewrite !normalize_sequence_eq. simpl. rewrite str_encode_app.
  destruct (str_encode s1) as [b1|e]; simpl; [|reflexivity].
  destruct (str_encode s2) as [b2|e]; simpl; [|reflexivity].
  rewrite canonical_form_app. reflexivity.
Qed.

Lemma normalize_str_cons_ascii (c : N) (s : str) :
  is_ascii c = true ->
  normalize_sequence (PyStr (c :: s)) =
  (b <- normalize_sequence (PyStr s) ;; Ok (canonical_form [byte_of_N c] ++ b)).
Proof.
  intro H. rewrite !normalize_sequence_eq.
  cbn [_to_binary]. rewrite (str_encode_cons_ascii _ _ H).
  destruct (str_encode s) as [b|e]; simpl; [|reflexivity].
  change (byte_of_N c :: b) with ([byte_of_N c] ++ b).
  rewrite canonical_form_app. reflexivity.
Qed.

Lemma edit_str_normalize (s s' : str) :
  edit removable_char case_variant_char s s' ->
  normalize_sequence (PyStr s) = normalize_sequence (PyStr s').
Proof.
  intros [pre c post Hc | pre c post Hc | pre c c' post Hc];
    rewrite !normalize_str_app; f_equal.
  - apply andb_prop in Hc. destruct Hc as [Ha Hd].
    rewrite (normalize_str_cons_ascii _ _ Ha).
    rewrite canonical_form_cons_deleted by exact Hd.
    destruct (normalize_sequence (PyStr post)); reflexivity.
  - apply andb_prop in Hc. destruct Hc as [Ha Hd].
    rewrite (normalize_str_cons_ascii _ _ Ha).
    rewrite canonical_form_cons_deleted by exact Hd.
    destruct (normalize_sequence (PyStr post)); reflexivity.
  - apply andb_prop in Hc. destruct Hc as [Ha Hv].
    apply andb_prop in Ha. destruct Ha as [Ha Ha'].
    destruct (case_variant_upper _ _ Hv) as (Hu & Hd & Hd').
    rewrite (normalize_str_cons_ascii _ _ Ha), (normalize_str_cons_ascii _ _ Ha').
    rewrite !canonical_form_cons_kept by assumption.
    rewrite Hu. reflexivity.
Qed.

Lemma seq_edit_normalize (x y : pyobj) :
  seq_edit x y -> normalize_sequence x = normalize_sequence y.
Proof.
  intros [b b' H | s s' H].
  - rewrite !normalize_sequence_bytes. f_equal. apply edit_bytes_canonical. exact H.
  - apply edit_str_normalize. exact H.
Qed.

Lemma seq_edits_normalize (x y : pyobj) :
  seq_edits x y -> normalize_sequence x = normalize_sequence y.
Proof.
  induction 1 as [x y H | x | x y z _ IH1 _ IH2].
  - apply seq_edit_normalize. exact H.
  - reflexivity.
  - rewrite IH1. exact IH2.
Qed.

(** With [normalize=True] a digest function reads its argument only
    through [normalize_sequence]. *)
Lemma normalized_pipeline {B : Type} (x : pyobj) (k : bytes -> result B) :
  (seq <- _to_binary x ;; seq' <- normalize_if true seq ;; k seq') =
  (seq' <- normalize_sequence x ;; k seq').
Proof.
  rewrite normalize_sequence_eq.
  destruct (_to_binary x) as [b|e]; [|reflexivity].
  cbn [bind normalize_if]. rewrite normalize_sequence_bytes. reflexivity.
Qed.

(** With [normalize=False] the coerced bytes are hashed as they are. *)
Lemma raw_pipeline {B : Type} (x : pyobj) (k : bytes -> result B) :
  (seq <- _to_binary x ;; seq' <- normalize_if false seq ;; k seq') =
  (seq <- _to_binary x ;; k seq).
Proof. destruct (_to_binary x); reflexivity. Qed.

(** C3 (amended). With the default [normalize=True], each of the five
    digest functions gives the same result on [s] and on any [s'] obtained
    from [s] by changing the case of ASCII letters and inserting or
    removing ASCII whitespace or [*] characters at any positions; and the
    three spellings of ACGT in the documentation have the MD5 digest
    f1f8f4bf413b16ad135722aa4591043e. *)
Theorem digests_invariant_under_edits :
  (forall s s' : pyobj,
      seq_edits s s' ->
      seq_seguid s default_normalize = seq_seguid s' default_normalize
      /\ seq_seqhash s default_normalize default_digest_size
         = seq_seqhash s' default_normalize default_digest_size
      /\ seq_md5 s default_normalize = seq_md5 s' default_normalize
      /\ seq_sha1 s default_normalize = seq_sha1 s' default_normalize
      /\ seq_sha512 s default_normalize = seq_sha512 s' default_normalize)
  /\ seq_md5 (PyStr (text "ACGT*")) default_normalize
     = Ok (text "f1f8f4bf413b16ad135722aa4591043e")
  /\ seq_md5 (PyStr (text " A C G T ")) default_normalize
     = Ok (text "f1f8f4bf413b16ad135722aa4591043e")
  /\ seq_md5 (PyStr (text "acgt")) default_normalize
     = Ok (text "f1f8f4bf413b16ad135722aa4591043e").
Proof.
  split.
  - intros s s' H. apply seq_edits_normalize in H.
    unfold seq_seguid, seq_seqhash, seq_md5, seq_sha1, seq_sha512, default_normalize.
    rewrite !normalized_pipeline, H. split_conj; reflexivity.
  - split_conj; vm_compute; reflexivity.
Qed.

Lemma digests_invariant_under_edits_witness :
  seq_md5 (PyStr (text "a c*")) default_normalize
  = seq_md5 (PyStr (text "AC")) default_normalize.
Proof.
  apply (proj1 digests_invariant_under_edits).
  apply rt_trans with (y := PyStr (text "a c")).
  { apply rt_step, seq_edit_str.
    exact (edit_remove removable_char case_variant_char
             [97; 32; 99]%N 42%N [] eq_refl). }
  apply rt_trans with (y := PyStr (text "ac")).
  { apply rt_step, seq_edit_str.
    exact (edit_remove removable_char case_variant_char
             [97]%N 32%N [99]%N eq_refl). }
  apply rt_trans with (y := PyStr (text "Ac")).
  { apply rt_step, seq_edit_str.
    exact (edit_case removable_char case_variant_char
             [] 97%N 65%N [99]%N eq_refl). }
  apply rt_step, seq_edit_str.
  exact (edit_case removable_char case_variant_char
           [65]%N 99%N 67%N [] eq_refl).
Defined.

(** C3, the claim as written fails: changing the case of a letter
    outside ASCII changes every digest.  The text of the one character
    U+00E9 (e with acute) and the text of its upper case U+00C9, what
    [str.upper()] makes of it, encode to the bytes C3 A9 and C3 89;
    [bytes.upper()] folds neither, and the five digests differ. *)
Lemma non_ascii_case_changes_digests :
  normalize_sequence (PyStr [0xE9%N]) = Ok [xc3; xa9]
  /\ normalize_sequence (PyStr [0xC9%N]) = Ok [xc3; x89]
  /\ seq_seguid (PyStr [0xE9%N]) default_normalize
     = Ok (text "vxW+cXrBsIC08cRWaSgliR/1Bz0")
  /\ seq_seguid (PyStr [0xC9%N]) default_normalize
     = Ok (text "Dk9+h5jm/AmGiFVRVhQsNVHal4w")
  /\ seq_seqhash (PyStr [0xE9%N]) default_normalize default_digest_size
     = Ok (text "nirShjPyRFG9TzwcsgWGohpEw67tvcAb")
  /\ seq_seqhash (PyStr [0xC9%N]) default_normalize default_digest_size
     = Ok (text "WjYxTyGLnT5Q2OmanrTiE54YYwKIePHv")
  /\ seq_md5 (PyStr [0xE9%N]) default_normalize
     = Ok (text "66ddcd97cfdeabb2f6fb8a999b4bc76f")
  /\ seq_md5 (PyStr [0xC9%N]) default_normalize
     = Ok (text "66983bea8fc1df977a17a4fc78c4cc73")
  /\ seq_sha1 (PyStr [0xE9%N]) default_normalize
     = Ok (text "bf15be717ac1b080b4f1c456692825891ff5073d")
  /\ seq_sha1 (PyStr [0xC9%N]) default_normalize
     = Ok (text "0e4f7e8798e6fc098688555156142c3551da978c")
  /\ seq_sha512 (PyStr [0xE9%N]) default_normalize
     = Ok (text "9e2ad28633f24451bd4f3c1cb20586a21a44c3aeedbdc01b9cc8fa72917ea7bd689c82b8bf1fef89b911cf8cc46fa2c1ccc10087b2094fd4d3350ecd88526a2c")
  /\ seq_sha512 (PyStr [0xC9%N]) default_normalize
     = Ok (text "5a36314f218b9d3e50d8e99a9eb4e2139e1863028878f1efd93262108e3b51e3f803f5ee821cf209d41cda47aa547b732f867e2a49655340a72f0d1e9a55752a")
  /\ seq_seguid (PyStr [0xE9%N]) default_normalize
     <> seq_seguid (PyStr [0xC9%N]) default_normalize
  /\ seq_seqhash (PyStr [0xE9%N]) default_normalize default_digest_size
     <> seq_seqhash (PyStr [0xC9%N]) default_normalize default_digest_size
  /\ seq_md5 (PyStr [0xE9%N]) default_normalize
     <> seq_md5 (PyStr [0xC9%N]) default_normalize
  /\ seq_sha1 (PyStr [0xE9%N]) default_normalize
     <> seq_sha1 (PyStr [0xC9%N]) default_normalize
  /\ seq_sha512 (PyStr [0xE9%N]) default_normalize
     <> seq_sha512 (PyStr [0xC9%N]) default_normalize.
Proof.
  split_conj;
    lazymatch goal with
    | |- _ <> _ => intro H; vm_compute in H; discriminate H
    | |- _ => vm_compute; reflexivity
    end.
Qed.

(** * Properties of the encoders *)

(** ** Digest sizes *)

Lemma le_bytes_length (n : nat) (x : Z) : length (le_bytes n x) = n.
Proof. revert x. induction n as [|n IH]; intro x; simpl; [|rewrite IH]; reflexivity. Qed.

Lemma be_bytes_length (n : nat) (x : Z) : length (be_bytes n x) = n.
Proof. unfold be_bytes. rewrite length_rev. apply le_bytes_length. Qed.

Lemma md5_digest_length (msg : bytes) : length (MD5.digest msg) = 16.
Proof. unfold MD5.digest. rewrite !length_app, !le_bytes_length. reflexivity. Qed.

Lemma sha1_digest_length (msg : bytes) : length (SHA1.digest msg) = 20.
Proof. unfold SHA1.digest. rewrite !length_app, !be_bytes_length. reflexivity. Qed.

Lemma sha512_digest_length (msg : bytes) : length (SHA512.digest msg) = 64.
Proof. unfold SHA512.digest. rewrite !length_app, !be_bytes_length. reflexivity. Qed.

(** ** Slices *)

Lemma slice_to_nat {A : Type} (l : list A) (n : nat) :
  slice_to l (Z.of_nat n) = firstn n l.
Proof.
  unfold slice_to.
  destruct (Z.ltb_spec (Z.of_nat n) 0) as [H|H]; [lia|].
  destruct (Nat.le_gt_cases n (length l)) as [Hle|Hgt].
  - rewrite Z.min_l by lia. rewrite Nat2Z.id. reflexivity.
  - rewrite Z.min_r by lia. rewrite Nat2Z.id.
    rewrite firstn_all, firstn_all2 by lia. reflexivity.
Qed.

Lemma slice_to_negative {A : Type} (l : list A) (k : nat) :
  0 < k -> slice_to l (- Z.of_nat k) = firstn (length l - k) l.
Proof.
  intro Hk. unfold slice_to.
  destruct (Z.ltb_spec (- Z.of_nat k) 0) as [H|H]; [|lia].
  f_equal. lia.
Qed.

Lemma slice_to_length {A : Type} (l : list A) (stop : Z) :
  length (slice_to l stop) <= length l.
Proof. unfold slice_to. rewrite length_firstn. lia. Qed.

(** ** Base64 *)

Lemma list_ind3 {A : Type} (P : list A -> Prop) :
  P [] -> (forall a, P [a]) -> (forall a b, P [a; b]) ->
  (forall a b c l, P l -> P (a :: b :: c :: l)) ->
  forall l, P l.
Proof.
  intros H0 H1 H2 H3.
  fix IH 1. intros [|a [|b [|c l]]]; [exact H0 | apply H1 | apply H2 |].
  apply H3, IH.
Qed.

Lemma land_63_bound (x : N) : (N.land x 0x3f < 64)%N.
Proof.
  change 0x3f%N with (N.ones 6). rewrite N.land_ones.
  apply N.mod_lt. discriminate.
Qed.

Lemma sextet_bound (x shift : N) : (sextet x shift < 64)%N.
Proof. apply land_63_bound. Qed.

Lemma low2_shift_bound (x : N) : (N.shiftl (N.land x 0x3) 4 < 64)%N.
Proof.
  assert (H : (N.land x 0x3 < 4)%N).
  { change 0x3%N with (N.ones 2). rewrite N.land_ones. apply N.mod_lt. discriminate. }
  rewrite N.shiftl_mul_pow2. change (2 ^ 4)%N with 16%N. lia.
Qed.

Lemma low4_shift_bound (x : N) : (N.shiftl (N.land x 0xf) 2 < 64)%N.
Proof.
  assert (H : (N.land x 0xf < 16)%N).
  { change 0xf%N with (N.ones 4). rewrite N.land_ones. apply N.mod_lt. discriminate. }
  rewrite N.shiftl_mul_pow2. change (2 ^ 2)%N with 4%N. lia.
Qed.

Lemma pad_count_add3 (n : nat) : pad_count (S (S (S n))) = pad_count n.
Proof.
  unfold pad_count. replace (S (S (S n))) with (n + 1 * 3) by lia.
  rewrite Nat.Div0.mod_add. reflexivity.
Qed.

Lemma b64_length_add3 (n : nat) : b64_length (S (S (S n))) = 4 + b64_length n.
Proof.
  unfold b64_length. replace (S (S (S n)) + 2) with (n + 2 + 1 * 3) by lia.
  rewrite Nat.div_add by discriminate. lia.
Qed.

Section Base64Facts.
Variable table : bytes.
Hypothesis table_length : length table = 64.

Lemma b64_char_In (i : N) : (i < 64)%N -> In (b64_char table i) table.
Proof. intro H. unfold b64_char. apply nth_In. rewrite table_length. lia. Qed.

(** The encoding is alphabet characters followed by the padding. *)
Lemma b2a_base64_shape (s : bytes) :
  exists body,
    b2a_base64 table s = body ++ repeat BASE64_PAD (pad_count (length s))
    /\ Forall (fun c => In c table) body.
Proof.
  induction s as [|a|a b|a b c s IH] using list_ind3.
  - exists []. split; [reflexivity | constructor].
  - eexists [_; _]. split; [reflexivity|].
    repeat constructor; apply b64_char_In;
      [apply sextet_bound | apply low2_shift_bound].
  - eexists [_; _; _]. split; [reflexivity|].
    repeat constructor; apply b64_char_In;
      [apply sextet_bound | apply sextet_bound | apply low4_shift_bound].
  - destruct IH as (body & Hb & Hall).
    eexists (_ :: _ :: _ :: _ :: body). split.
    + cbn [b2a_base64 length]. rewrite Hb, pad_count_add3. reflexivity.
    + repeat constructor; try (apply b64_char_In; apply sextet_bound). exact Hall.
Qed.

Lemma b2a_base64_length (s : bytes) :
  length (b2a_base64 table s) = b64_length (length s).
Proof.
  induction s as [|a|a b|a b c s IH] using list_ind3; try reflexivity.
  cbn [b2a_base64 length]. rewrite IH, b64_length_add3. reflexivity.
Qed.

End Base64Facts.

(** ** The two alphabets *)

Lemma table_b2a_base64_chars (b : byte) :
  In b table_b2a_base64 -> alphabet_char b = true.
Proof.
  assert (H : forallb alphabet_char table_b2a_base64 = true) by reflexivity.
  rewrite forallb_forall in H. apply H.
Qed.

Lemma table_urlsafe_chars (b : byte) :
  In b table_urlsafe -> alphabet_char b = true.
Proof.
  assert (H : forallb alphabet_char table_urlsafe = true) by reflexivity.
  rewrite forallb_forall in H. apply H.
Qed.

Lemma alphabet_char_ascii (b : byte) :
  alphabet_char b = true -> (Byte.to_N b <? 128)%N = true.
Proof. intro H. apply andb_prop in H. apply H. Qed.

Lemma alphabet_char_not_equals (b : byte) :
  alphabet_char b = true -> Byte.to_N b <> EQUALS.
Proof. destruct b; intro H; try discriminate H; intro E; discriminate E. Qed.

(** [urlsafe_b64encode] translates the standard encoding; that is the
    encoding over the URL-safe alphabet. *)
Lemma urlsafe_b64encode_table (s : bytes) :
  urlsafe_b64encode s = b2a_base64 table_urlsafe s.
Proof.
  unfold urlsafe_b64encode, b64encode, bytes_translate.
  assert (Hc : forall i, _urlsafe_encode_translation (b64_char table_b2a_base64 i)
                         = b64_char table_urlsafe i).
  { intro i. unfold b64_char.
    transitivity (nth (N.to_nat i)
                      (map _urlsafe_encode_translation table_b2a_base64)
                      (_urlsafe_encode_translation x00));
      [symmetry; apply map_nth | reflexivity]. }
  induction s as [|a|a b|a b c s IH] using list_ind3;
    cbn [b2a_base64 map]; rewrite ?Hc, ?IH; reflexivity.
Qed.

(** ** Decoding ASCII and stripping *)

Lemma bytes_decode_ascii_ok (b : bytes) :
  Forall (fun x => (Byte.to_N x <? 128)%N = true) b ->
  bytes_decode_ascii b = Ok (ascii_text b).
Proof.
  induction 1 as [|x b Hx _ IH]; simpl; [reflexivity|].
  rewrite Hx, IH. reflexivity.
Qed.

Lemma ascii_text_app (b1 b2 : bytes) :
  ascii_text (b1 ++ b2) = ascii_text b1 ++ ascii_text b2.
Proof. apply map_app. Qed.

Lemma ascii_text_pad (k : nat) : ascii_text (repeat BASE64_PAD k) = repeat EQUALS k.
Proof. unfold ascii_text. rewrite map_repeat. reflexivity. Qed.

Lemma drop_leading_repeat (c : N) (k : nat) (s : str) :
  drop_leading [c] (repeat c k ++ s) = drop_leading [c] s.
Proof.
  induction k as [|k IH]; [reflexivity|].
  cbn [repeat app drop_leading mem_N existsb]. rewrite N.eqb_refl. exact IH.
Qed.

Lemma str_rstrip_padding (body : str) (k : nat) :
  ~ In EQUALS body -> str_rstrip [EQUALS] (body ++ repeat EQUALS k) = body.
Proof.
  intro Hbody. unfold str_rstrip.
  rewrite rev_app_distr, rev_repeat, drop_leading_repeat.
  destruct (rev body) as [|c r] eqn:Hr.
  - apply (f_equal (@rev N)) in Hr. rewrite rev_involutive in Hr.
    subst body. reflexivity.
  - assert (Hc : c <> EQUALS).
    { intro E. apply Hbody. apply in_rev. rewrite Hr, E. left. reflexivity. }
    cbn [drop_leading mem_N existsb].
    destruct (N.eqb_spec c EQUALS) as [E|_]; [contradiction|].
    cbn [orb]. rewrite <- Hr. apply rev_involutive.
Qed.

Lemma not_In_ascii_text (body : bytes) :
  Forall (fun c => alphabet_char c = true) body -> ~ In EQUALS (ascii_text body).
Proof.
  intros Hall Hin. unfold ascii_text in Hin. apply in_map_iff in Hin.
  destruct Hin as (c & Hc & Hin).
  rewrite Forall_forall in Hall.
  exact (alphabet_char_not_equals c (Hall c Hin) Hc).
Qed.

(** What an encoding looks like as text, for either alphabet. *)
Lemma encoded_text_shape (table : bytes) (s : bytes) :
  length table = 64 ->
  (forall b, In b table -> alphabet_char b = true) ->
  exists body : bytes,
    b2a_base64 table s = body ++ repeat BASE64_PAD (pad_count (length s))
    /\ Forall (fun c => alphabet_char c = true) body
    /\ bytes_decode_ascii (b2a_base64 table s) = Ok (ascii_text (b2a_base64 table s))
    /\ ~ In EQUALS (ascii_text body).
Proof.
  intros Hlen Hchars.
  destruct (b2a_base64_shape table Hlen s) as (body & Hb & Hall).
  assert (Hall' : Forall (fun c => alphabet_char c = true) body).
  { eapply Forall_impl; [|exact Hall]. exact Hchars. }
  exists body. split; [exact Hb|]. split; [exact Hall'|]. split.
  - apply bytes_decode_ascii_ok. rewrite Hb. apply Forall_app. split.
    + eapply Forall_impl; [|exact Hall']. exact alphabet_char_ascii.
    + apply Forall_forall. intros x Hx. apply repeat_spec in Hx. subst x. reflexivity.
  - apply not_In_ascii_text. exact Hall'.
Qed.

Lemma In_equals_padding (body : bytes) (k : nat) :
  ~ In EQUALS (ascii_text body) ->
  (In EQUALS (ascii_text (body ++ repeat BASE64_PAD k)) <-> k <> 0).
Proof.
  intro Hbody. rewrite ascii_text_app, ascii_text_pad, in_app_iff.
  split.
  - intros [H|H]; [contradiction|]. destruct k; [destruct H | discriminate].
  - intro Hk. right. destruct k; [contradiction|]. left. reflexivity.
Qed.

(** * The digest functions *)

Lemma sha512t_bytes (data : bytes) (digest_size : Z) :
  sha512t (PyBytes data) digest_size
  = Ok (ascii_text (b2a_base64 table_urlsafe
                      (slice_to (SHA512.digest data) digest_size))).
Proof.
  unfold sha512t. cbn [hashlib_sha512 bind]. rewrite urlsafe_b64encode_table.
  destruct (encoded_text_shape table_urlsafe
              (slice_to (SHA512.digest data) digest_size)
              eq_refl table_urlsafe_chars) as (_ & _ & _ & H & _).
  exact H.
Qed.

Lemma sha512t_nat (data : bytes) (n : nat) :
  sha512t (PyBytes data) (Z.of_nat n) = Ok (seqhash_of data n).
Proof. rewrite sha512t_bytes, slice_to_nat. reflexivity. Qed.

Lemma seq_seqhash_eq (seq : pyobj) (normalize : bool) (digest_size : Z) :
  seq_seqhash seq normalize digest_size
  = (b <- _to_binary seq ;; Ok (seqhash_of (hashed_bytes normalize b) 24)).
Proof.
  unfold seq_seqhash. destruct (_to_binary seq) as [b|e]; [|reflexivity].
  cbn [bind]. rewrite normalize_if_eq. cbn [bind].
  exact (sha512t_nat (hashed_bytes normalize b) 24).
Qed.

Lemma seq_seguid_eq (seq : pyobj) (normalize : bool) :
  seq_seguid seq normalize
  = (b <- _to_binary seq ;; Ok (seguid_of (hashed_bytes normalize b))).
Proof.
  unfold seq_seguid. destruct (_to_binary seq) as [b|e]; [|reflexivity].
  cbn [bind]. rewrite normalize_if_eq. cbn [bind hashlib_sha1].
  destruct (encoded_text_shape table_b2a_base64
              (SHA1.digest (hashed_bytes normalize b))
              eq_refl table_b2a_base64_chars) as (_ & _ & _ & H & _).
  unfold b64encode. rewrite H. reflexivity.
Qed.

Lemma seq_md5_eq (seq : pyobj) (normalize : bool) :
  seq_md5 seq normalize
  = (b <- _to_binary seq ;; Ok (hexlify (MD5.digest (hashed_bytes normalize b)))).
Proof.
  unfold seq_md5. destruct (_to_binary seq) as [b|e]; [|reflexivity].
  cbn [bind]. rewrite normalize_if_eq. reflexivity.
Qed.

Lemma seq_sha1_eq (seq : pyobj) (normalize : bool) :
  seq_sha1 seq normalize
  = (b <- _to_binary seq ;; Ok (hexlify (SHA1.digest (hashed_bytes normalize b)))).
Proof.
  unfold seq_sha1. destruct (_to_binary seq) as [b|e]; [|reflexivity].
  cbn [bind]. rewrite normalize_if_eq. reflexivity.
Qed.

Lemma seq_sha512_eq (seq : pyobj) (normalize : bool) :
  seq_sha512 seq normalize
  = (b <- _to_binary seq ;; Ok (hexlify (SHA512.digest (hashed_bytes normalize b)))).
Proof.
  unfold seq_sha512. destruct (_to_binary seq) as [b|e]; [|reflexivity].
  cbn [bind]. rewrite normalize_if_eq. reflexivity.
Qed.

(** The standard encoding of a SHA-1 digest: 27 characters and one [=]. *)
Lemma seguid_of_shape (data : bytes) :
  ascii_text (b2a_base64 table_b2a_base64 (SHA1.digest data))
  = seguid_of data ++ [EQUALS]
  /\ length (seguid_of data) = 27
  /\ ~ In EQUALS (seguid_of data).
Proof.
  destruct (encoded_text_shape table_b2a_base64 (SHA1.digest data)
              eq_refl table_b2a_base64_chars) as (body & Hb & _ & _ & Hno).
  pose proof (b2a_base64_length table_b2a_base64 (SHA1.digest data)) as Hlen.
  rewrite sha1_digest_length in Hb, Hlen.
  change (pad_count 20) with 1 in Hb. change (b64_length 20) with 28 in Hlen.
  assert (Hs : seguid_of data = ascii_text body).
  { unfold seguid_of. rewrite Hb, ascii_text_app, ascii_text_pad.
    apply str_rstrip_padding. exact Hno. }
  rewrite Hs. split; [|split].
  - rewrite Hb, ascii_text_app. reflexivity.
  - rewrite Hb, length_app in Hlen. cbn [repeat length] in Hlen.
    unfold ascii_text. rewrite length_map. lia.
  - exact Hno.
Qed.

(** C6. For every input and either value of the flag, [seq_seguid]
    returns, for the coerced bytes [b] of the input, the standard-alphabet
    base64 encoding of the 20-byte SHA-1 digest of the (optionally
    normalized) bytes with its trailing [=] removed: the encoding is the
    returned text followed by its single [=], the returned text is 27
    characters long and holds no [=]. *)
Theorem seq_seguid_spec (seq : pyobj) (normalize : bool) :
  seq_seguid seq normalize
  = (b <- _to_binary seq ;;
     Ok (str_rstrip (text "=")
           (ascii_text (b2a_base64 table_b2a_base64
                          (SHA1.digest (if normalize then canonical_form b else b))))))
  /\ (forall data : bytes,
        length (SHA1.digest data) = 20
        /\ ascii_text (b2a_base64 table_b2a_base64 (SHA1.digest data))
           = seguid_of data ++ text "="
        /\ length (seguid_of data) = 27
        /\ ~ In EQUALS (seguid_of data))
  /\ (forall out, seq_seguid seq normalize = Ok out ->
        length out = 27 /\ ~ In EQUALS out)
  /\ (forall b : bytes, succeeds (seq_seguid (PyBytes b) normalize)).
Proof.
  split; [apply seq_seguid_eq|]. split; [|split].
  - intro data. split; [apply sha1_digest_length | apply seguid_of_shape].
  - intros out. rewrite seq_seguid_eq.
    destruct (_to_binary seq) as [b|e]; cbn [bind]; intro H; [|discriminate H].
    injection H as <-.
    destruct (seguid_of_shape (hashed_bytes normalize b)) as (_ & Hl & Hn).
    split; assumption.
  - intro b. rewrite seq_seguid_eq. eexists. reflexivity.
Qed.

Lemma pad_count_zero (k : nat) : pad_count k <> 0 <-> k mod 3 <> 0.
Proof.
  unfold pad_count. pose proof (Nat.mod_upper_bound k 3) as H.
  destruct (k mod 3) as [|[|[|m]]]; cbn; lia.
Qed.

Lemma firstn_digest_length (data : bytes) (n : nat) :
  length (firstn n (SHA512.digest data)) = Nat.min n 64.
Proof. rewrite length_firstn, sha512_digest_length. reflexivity. Qed.

(** The text of a truncated digest: alphabet characters, then padding. *)
Lemma encoded_slice_shape (d : bytes) :
  exists body : bytes,
    ascii_text (b2a_base64 table_urlsafe d)
    = ascii_text body ++ repeat EQUALS (pad_count (length d))
    /\ Forall (fun c => In c table_urlsafe) body
    /\ ~ In EQUALS (ascii_text body).
Proof.
  destruct (b2a_base64_shape table_urlsafe eq_refl d) as (body & Hb & Hall).
  exists body. split; [|split].
  - rewrite Hb, ascii_text_app, ascii_text_pad. reflexivity.
  - exact Hall.
  - apply not_In_ascii_text. eapply Forall_impl; [|exact Hall].
    exact table_urlsafe_chars.
Qed.

Lemma In_equals_encoded (d : bytes) :
  In EQUALS (ascii_text (b2a_base64 table_urlsafe d)) <-> length d mod 3 <> 0.
Proof.
  destruct (encoded_slice_shape d) as (body & Hb & _ & Hno).
  rewrite Hb, <- pad_count_zero, <- ascii_text_pad, <- ascii_text_app.
  apply In_equals_padding. exact Hno.
Qed.

Lemma seqhash_of_shape (data : bytes) (n : nat) :
  (exists body : bytes,
      seqhash_of data n = ascii_text body ++ repeat EQUALS (pad_count (Nat.min n 64))
      /\ Forall (fun c => In c table_urlsafe) body
      /\ ~ In EQUALS (ascii_text body))
  /\ length (seqhash_of data n) = b64_length (Nat.min n 64)
  /\ (In EQUALS (seqhash_of data n) <-> Nat.min n 64 mod 3 <> 0).
Proof.
  unfold seqhash_of. split; [|split].
  - rewrite <- (firstn_digest_length data n). apply encoded_slice_shape.
  - unfold ascii_text. rewrite length_map, (b2a_base64_length table_urlsafe).
    rewrite firstn_digest_length. reflexivity.
  - rewrite <- (firstn_digest_length data n). apply In_equals_encoded.
Qed.

(** C7. For every byte input and every digest size (a number of bytes),
    [sha512t] normalizes nothing: it returns the URL-safe-alphabet base64
    encoding of the first [digest_size] bytes of the SHA-512 digest of the
    data as given, with the [=] padding of the encoder kept: the text is
    alphabet characters followed by as many [=] as the retained byte count
    requires.  So lower and upper case data have different digests, and
    two retained bytes give a padded text. *)
Theorem sha512t_spec (data : bytes) (digest_size : nat) :
  sha512t (PyBytes data) (Z.of_nat digest_size)
  = Ok (ascii_text (b2a_base64 table_urlsafe (firstn digest_size (SHA512.digest data))))
  /\ length (firstn digest_size (SHA512.digest data)) = Nat.min digest_size 64
  /\ (exists body : bytes,
         seqhash_of data digest_size
         = ascii_text body ++ repeat EQUALS (pad_count (Nat.min digest_size 64))
         /\ Forall (fun c => In c table_urlsafe) body
         /\ ~ In EQUALS (ascii_text body))
  /\ length (seqhash_of data digest_size) = b64_length (Nat.min digest_size 64)
  /\ sha512t (PyBytes (btext "acgt")) 24 = Ok (text "eFwawHHdibaZBDcs9kW3gm31h1NNJcQe")
  /\ sha512t (PyBytes (btext "ACGT")) 24 = Ok (text "aKF498dAxcJAqme6QYQ7EZ07-fiw8Kw2")
  /\ sha512t (PyBytes (btext "")) 2 = Ok (text "z4M=").
Proof.
  split; [apply sha512t_nat|].
  split; [apply firstn_digest_length|].
  destruct (seqhash_of_shape data digest_size) as (Hshape & Hlen & _).
  split; [exact Hshape|]. split; [exact Hlen|].
  split_conj; vm_compute; reflexivity.
Qed.

(** [sha512t] with a negative [digest_size] drops that many trailing bytes
    of the digest, as Python's slice does. *)
Lemma sha512t_negative (data : bytes) (k : nat) :
  0 < k ->
  sha512t (PyBytes data) (- Z.of_nat k) = Ok (seqhash_of data (64 - k)).
Proof.
  intro Hk. rewrite sha512t_bytes, slice_to_negative by exact Hk.
  rewrite sha512_digest_length. reflexivity.
Qed.

(** C1 (what the code does). [seq_seqhash] does not read its
    [digest_size] argument: it passes 24 to [sha512t].  Asked for 3
    bytes of the digest of the empty sequence it returns the 32 characters
    that encode 24 bytes, where [sha512t] with 3 returns 4 characters. *)
Theorem seq_seqhash_ignores_digest_size :
  (forall (seq : pyobj) (normalize : bool) (digest_size : Z),
      seq_seqhash seq normalize digest_size = seq_seqhash seq normalize 24)
  /\ seq_seqhash (PyStr (text "")) true 3 = Ok (text "z4PhNX7vuL3xVChQ1m2AB9Yg5AULVxXc")
  /\ sha512t (PyBytes (btext "")) 3 = Ok (text "z4Ph")
  /\ seq_seqhash (PyStr (text "")) true 3 = seq_seqhash (PyStr (text "")) true 48.
Proof.
  split; [reflexivity|]. split_conj; vm_compute; reflexivity.
Qed.

(** C5. The published reference vectors, with default arguments. *)
Theorem reference_vectors :
  seq_seguid (PyStr (text "")) default_normalize
  = Ok (text "2jmj7l5rSw0yVb/vlWAYkK/YBwk")
  /\ seq_seguid (PyStr (text "ACGT")) default_normalize
     = Ok (text "IQiZThf2zKn/I1KtqStlEdsHYDQ")
  /\ seq_seguid (PyStr (text "acgt")) default_normalize
     = seq_seguid (PyStr (text "ACGT")) default_normalize
  /\ seq_seqhash (PyStr (text "")) default_normalize default_digest_size
     = Ok (text "z4PhNX7vuL3xVChQ1m2AB9Yg5AULVxXc")
  /\ seq_seqhash (PyStr (text "ACGT")) default_normalize default_digest_size
     = Ok (text "aKF498dAxcJAqme6QYQ7EZ07-fiw8Kw2")
  /\ seq_seqhash (PyStr (text "acgt")) default_normalize default_digest_size
     = seq_seqhash (PyStr (text "ACGT")) default_normalize default_digest_size.
Proof. split_conj; vm_compute; reflexivity. Qed.

(** * Success and failure *)

Lemma utf8_encode_char_succeeds (c : N) :
  succeeds (utf8_encode_char c) <-> scalar_value c = true.
Proof.
  unfold succeeds, utf8_encode_char, scalar_value, is_surrogate.
  destruct (N.ltb_spec c 0x80); [split; [intros _|eexists; reflexivity]|].
  { destruct (N.ltb_spec c 0x110000), (N.leb_spec 0xD800 c), (N.leb_spec c 0xDFFF);
      try reflexivity; lia. }
  destruct (N.ltb_spec c 0x800); [split; [intros _|eexists; reflexivity]|].
  { destruct (N.ltb_spec c 0x110000), (N.leb_spec 0xD800 c), (N.leb_spec c 0xDFFF);
      try reflexivity; lia. }
  destruct (N.ltb_spec c 0x10000).
  { destruct (N.ltb_spec c 0x110000); [|lia].
    destruct (N.leb_spec 0xD800 c), (N.leb_spec c 0xDFFF); cbn [andb negb];
      split; intro E; try reflexivity; try discriminate E; try (eexists; reflexivity).
    destruct E as [a E]. discriminate E. }
  destruct (N.ltb_spec c 0x110000).
  { destruct (N.leb_spec 0xD800 c), (N.leb_spec c 0xDFFF); cbn [andb negb];
      split; intro E; try reflexivity; try (eexists; reflexivity); lia. }
  cbn [andb]. split; intro E; [destruct E as [a E]|]; discriminate E.
Qed.

Lemma str_encode_succeeds (s : str) :
  succeeds (str_encode s) <-> encodable s = true.
Proof.
  induction s as [|c s IH]; cbn [str_encode encodable forallb].
  - split; [reflexivity | intros _; eexists; reflexivity].
  - rewrite andb_true_iff, <- utf8_encode_char_succeeds.
    change (forallb scalar_value s) with (encodable s). rewrite <- IH.
    unfold succeeds.
    destruct (utf8_encode_char c) as [bc|e]; cbn [bind].
    + destruct (str_encode s) as [bs|e]; cbn [bind].
      * split; [intros _; split; eexists; reflexivity | intros _; eexists; reflexivity].
      * split; [intros [a E]; discriminate E | intros [_ [a E]]; discriminate E].
    + split; [intros [a E]; discriminate E | intros [[a E] _]; discriminate E].
Qed.

Lemma str_encode_raises (s : str) (e : exn) :
  str_encode s = Raise e -> e = UnicodeEncodeError.
Proof.
  revert e. induction s as [|c s IH]; intros e; cbn [str_encode].
  - intro E. discriminate E.
  - assert (Hc : forall e', utf8_encode_char c = Raise e' -> e' = UnicodeEncodeError).
    { unfold utf8_encode_char. intros e'.
      repeat match goal with
             | |- context [if ?b then _ else _] => destruct b
             end; intro E; try discriminate E; injection E as <-; reflexivity. }
    destruct (utf8_encode_char c) as [bc|e1]; cbn [bind].
    + destruct (str_encode s) as [bs|e2]; cbn [bind]; intro E; [discriminate E|].
      injection E as <-. apply IH. reflexivity.
    + intro E. injection E as <-. apply Hc. reflexivity.
Qed.

(** A function that coerces and then computes succeeds exactly when the
    coercion does. *)
Lemma coerced_succeeds {B : Type} (x : pyobj) (f : bytes -> B) :
  succeeds (b <- _to_binary x ;; Ok (f b)) <-> succeeds (_to_binary x).
Proof.
  unfold succeeds. destruct (_to_binary x) as [b|e]; cbn [bind].
  - split; intros _; eexists; reflexivity.
  - split; intros [a E]; discriminate E.
Qed.

Lemma to_binary_succeeds (x : pyobj) :
  succeeds (_to_binary x) <-> coercible x.
Proof.
  destruct x as [b|s]; cbn [_to_binary coercible].
  - split; [trivial | intros _; eexists; reflexivity].
  - apply str_encode_succeeds.
Qed.

(** C8 (amended). Every operation succeeds on every byte sequence,
    the empty one included.  The six operations that coerce their argument
    succeed on a text exactly when all its code points are Unicode scalar
    values (the empty text is one such); [sha512t], which does not coerce,
    succeeds on bytes and on nothing else. *)
Theorem operations_succeed (x : pyobj) (normalize : bool) (digest_size : Z) :
  (succeeds (normalize_sequence x) <-> coercible x)
  /\ (succeeds (seq_seguid x normalize) <-> coercible x)
  /\ (succeeds (seq_seqhash x normalize digest_size) <-> coercible x)
  /\ (succeeds (seq_md5 x normalize) <-> coercible x)
  /\ (succeeds (seq_sha1 x normalize) <-> coercible x)
  /\ (succeeds (seq_sha512 x normalize) <-> coercible x)
  /\ (succeeds (sha512t x digest_size) <-> is_bytes x)
  /\ (forall b : bytes, coercible (PyBytes b))
  /\ coercible (PyStr (text ""))
  /\ (forall s : str, coercible (PyStr s) <-> forallb scalar_value s = true).
Proof.
  rewrite normalize_sequence_eq, seq_seguid_eq, seq_seqhash_eq, seq_md5_eq,
    seq_sha1_eq, seq_sha512_eq.
  rewrite !coerced_succeeds, !to_binary_succeeds.
  split_conj; try reflexivity; try (intro b; exact I).
  destruct x as [b|s].
  - rewrite sha512t_bytes. split; intros _; eexists; reflexivity.
  - unfold sha512t, is_bytes; cbn [hashlib_sha512 bind].
    split; intros [a E]; discriminate E.
Qed.

(** C8, the claim as written fails: a text holding a lone surrogate
    raises in the byte coercion, and [sha512t] raises on any text. *)
Lemma text_input_can_raise :
  normalize_sequence (PyStr [0xD800%N]) = Raise UnicodeEncodeError
  /\ seq_seguid (PyStr [0xD800%N]) true = Raise UnicodeEncodeError
  /\ seq_md5 (PyStr [0xD800%N]) false = Raise UnicodeEncodeError
  /\ sha512t (PyStr (text "ACGT")) 24 = Raise TypeError.
Proof. split_conj; vm_compute; reflexivity. Qed.

Lemma seqhash_of_default (d : bytes) :
  length (seqhash_of d 24) = 32 /\ ~ In EQUALS (seqhash_of d 24).
Proof.
  destruct (seqhash_of_shape d 24) as (_ & Hlen & Hin).
  split; [exact Hlen|].
  intro H. apply Hin in H. apply H. reflexivity.
Qed.

(** C10 (amended). At the default [digest_size] of 24 the text that
    [sha512t] and [seq_seqhash] return is 32 characters long and holds no
    [=].  [sha512t] output holds [=] exactly when the number of digest
    bytes the slice retains is not divisible by 3; that number is
    [digest_size] only up to 64, and 64 beyond, so for a [digest_size]
    from 0 to 64 padding appears only when it is not divisible by 3, and
    from 64 upwards the text is 86 alphabet characters followed by two
    [=]. *)
Theorem seqhash_default_shape (data : bytes) (seq : pyobj) (normalize : bool) :
  sha512t (PyBytes data) default_digest_size = Ok (seqhash_of data 24)
  /\ seq_seqhash seq normalize default_digest_size
     = (b <- _to_binary seq ;; Ok (seqhash_of (hashed_bytes normalize b) 24))
  /\ (forall d : bytes, length (seqhash_of d 24) = 32 /\ ~ In EQUALS (seqhash_of d 24))
  /\ (forall digest_size : Z,
        exists out,
          sha512t (PyBytes data) digest_size = Ok out
          /\ (In EQUALS out
              <-> length (slice_to (SHA512.digest data) digest_size) mod 3 <> 0))
  /\ (forall n : nat,
        length (slice_to (SHA512.digest data) (Z.of_nat n)) = Nat.min n 64)
  /\ (forall (n : nat) (out : str),
        n <= 64 ->
        sha512t (PyBytes data) (Z.of_nat n) = Ok out ->
        In EQUALS out -> n mod 3 <> 0)
  /\ (forall n : nat,
        64 <= n ->
        exists body : str,
          sha512t (PyBytes data) (Z.of_nat n) = Ok (body ++ [EQUALS; EQUALS])
          /\ ~ In EQUALS body
          /\ length body = 86).
Proof.
  split; [exact (sha512t_nat data 24)|].
  split; [apply seq_seqhash_eq|].
  split; [exact seqhash_of_default|].
  split; [|split; [|split]].
  - intro digest_size. eexists. split; [apply sha512t_bytes|].
    apply In_equals_encoded.
  - intro n. rewrite slice_to_nat. apply firstn_digest_length.
  - intros n out Hn E Hin. rewrite sha512t_nat in E. injection E as <-.
    apply seqhash_of_shape in Hin. rewrite Nat.min_l in Hin by exact Hn.
    exact Hin.
  - intros n Hn. rewrite sha512t_nat.
    destruct (seqhash_of_shape data n) as ((body & Hb & _ & Hno) & Hlen & _).
    rewrite Nat.min_r in Hb, Hlen by exact Hn.
    change (pad_count 64) with 2 in Hb. change (b64_length 64) with 88 in Hlen.
    cbn [repeat] in Hb.
    exists (ascii_text body). rewrite Hb. split; [reflexivity|].
    split; [exact Hno|].
    rewrite Hb, length_app in Hlen. cbn [length] in Hlen. lia.
Qed.

(** C10, the claim as written fails: 66 is divisible by 3, the slice
    retains the 64 bytes there are, and the text ends in two [=]. *)
Lemma sha512t_66_padded :
  sha512t (PyBytes (btext "")) 66
  = Ok (text "z4PhNX7vuL3xVChQ1m2AB9Yg5AULVxXcg_SpIdNs6c5H0NE8XYXysP-DGNKHfuwvY7kxvUdBeoGlODJ6-SfaPg==")
  /\ mem_N EQUALS
       (text "z4PhNX7vuL3xVChQ1m2AB9Yg5AULVxXcg_SpIdNs6c5H0NE8XYXysP-DGNKHfuwvY7kxvUdBeoGlODJ6-SfaPg==")
     = true
  /\ (66 mod 3 = 0)%Z.
Proof. split_conj; vm_compute; reflexivity. Qed.

(** * Raw and normalized input (normalize=False) *)

Lemma upper_not_lower (b : byte) : is_ascii_lower (ascii_upper b) = false.
Proof. destruct b; reflexivity. Qed.

(** No byte of a canonical form is whitespace, [*] or a letter a-z. *)
Lemma canonical_form_clean (b : bytes) (y : byte) :
  In y (canonical_form b) -> is_deleted y = false /\ is_ascii_lower y = false.
Proof.
  unfold canonical_form. rewrite in_map_iff. intros (z & <- & Hz).
  apply In_remove_deleted in Hz. destruct Hz as [_ Hz].
  split; [rewrite is_deleted_upper; exact Hz | apply upper_not_lower].
Qed.

(** An input with a lowercase letter, whitespace or [*] is not its own
    canonical form: the two flags hash different bytes. *)
Lemma canonical_form_changes (b : bytes) (y : byte) :
  In y b -> is_deleted y = true \/ is_ascii_lower y = true -> canonical_form b <> b.
Proof.
  intros Hin Hy E. rewrite <- E in Hin.
  apply canonical_form_clean in Hin. destruct Hin as [Hd Hl].
  destruct Hy as [Hy|Hy]; congruence.
Qed.

(** The documentation's vectors for [normalize=False]. *)
Lemma raw_vectors :
  seq_seguid (PyStr (text "acgt")) false = Ok (text "lII0AoG1/I8qKY271rgv5CFZtsU")
  /\ seq_seqhash (PyStr (text "acgt")) false 24
     = Ok (text "eFwawHHdibaZBDcs9kW3gm31h1NNJcQe")
  /\ seq_md5 (PyStr (text "acgt")) false = Ok (text "db516c3913e179338b162b2476d1c23f")
  /\ seq_sha1 (PyStr (text "acgt")) false
     = Ok (text "9482340281b5fc8f2a298dbbd6b82fe42159b6c5").
Proof. split_conj; vm_compute; reflexivity. Qed.

(** * Further properties of the module *)

(** ** Hexadecimal digests *)

Lemma byte_to_N_lt (x : byte) : (Byte.to_N x < 256)%N.
Proof. pose proof (Byte.to_N_bounded x). lia. Qed.

Lemma byte_to_N_inj (x y : byte) : Byte.to_N x = Byte.to_N y -> x = y.
Proof.
  intro H. apply (f_equal Byte.of_N) in H. rewrite !Byte.of_to_N in H.
  injection H as H. exact H.
Qed.

Lemma ascii_text_inj (b b' : bytes) : ascii_text b = ascii_text b' -> b = b'.
Proof.
  revert b'. induction b as [|x b IH]; intros [|y b'] H; try discriminate H.
  - reflexivity.
  - cbn in H. injection H as Hx Hb. f_equal; [apply byte_to_N_inj, Hx | apply IH, Hb].
Qed.

Lemma hex_digit_In (n : N) : (n < 16)%N -> In (hex_digit n) hex_digits.
Proof. intro H. unfold hex_digit. apply nth_In. change (length hex_digits) with 16. lia. Qed.

Lemma hex_digit_inj (n m : N) :
  (n < 16)%N -> (m < 16)%N -> hex_digit n = hex_digit m -> n = m.
Proof.
  intros Hn Hm H. unfold hex_digit in H.
  assert (Hd : NoDup hex_digits).
  { repeat constructor; cbn; intuition discriminate. }
  apply N2Nat.inj.
  eapply (proj1 (NoDup_nth hex_digits 0%N) Hd); [| |exact H];
    change (length hex_digits) with 16; lia.
Qed.

Lemma hexlify_length (b : bytes) : length (hexlify b) = 2 * length b.
Proof.
  unfold hexlify. induction b as [|x b IH]; [reflexivity|].
  cbn [flat_map app length]. rewrite IH. lia.
Qed.

Lemma byte_nibbles (x : byte) :
  (Byte.to_N x / 16 < 16)%N /\ (Byte.to_N x mod 16 < 16)%N.
Proof.
  pose proof (byte_to_N_lt x) as H. split.
  - apply N.Div0.div_lt_upper_bound. exact H.
  - apply N.mod_lt. discriminate.
Qed.

Lemma hexlify_chars (b : bytes) : Forall (fun c => In c hex_digits) (hexlify b).
Proof.
  unfold hexlify. induction b as [|x b IH]; [constructor|].
  cbn [flat_map app]. destruct (byte_nibbles x) as [Hh Hl].
  constructor; [apply hex_digit_In, Hh|].
  constructor; [apply hex_digit_In, Hl | exact IH].
Qed.

Lemma hexlify_inj (b b' : bytes) : hexlify b = hexlify b' -> b = b'.
Proof.
  unfold hexlify. revert b'.
  induction b as [|x b IH]; intros [|y b'] H; try discriminate H; [reflexivity|].
  cbn [flat_map app] in H. injection H as Hh Hl Hrest.
  destruct (byte_nibbles x) as [Hxh Hxl], (byte_nibbles y) as [Hyh Hyl].
  apply hex_digit_inj in Hh; [|assumption..].
  apply hex_digit_inj in Hl; [|assumption..].
  f_equal; [|apply IH, Hrest].
  apply byte_to_N_inj.
  rewrite (N.div_mod (Byte.to_N x) 16), (N.div_mod (Byte.to_N y) 16) by discriminate.
  rewrite Hh, Hl. reflexivity.
Qed.

(** ** Base64 loses nothing *)

Lemma forall_below (P : N -> bool) (n : nat) :
  forallb P (map N.of_nat (seq 0 n)) = true ->
  forall i, (i < N.of_nat n)%N -> P i = true.
Proof.
  intros H i Hi. rewrite forallb_forall in H. apply H.
  rewrite <- (N2Nat.id i). apply in_map. apply in_seq. lia.
Qed.

Lemma sextet_div (x k : N) : sextet x k = ((x / 2 ^ k) mod 64)%N.
Proof.
  unfold sextet. rewrite N.shiftr_div_pow2.
  change 0x3f%N with (N.ones 6). rewrite N.land_ones. reflexivity.
Qed.

Lemma div_mod_digits (x b q r : N) :
  (x = b * q + r -> r < b -> x / b = q /\ x mod b = r)%N.
Proof.
  intros E H. split; symmetry.
  - eapply N.div_unique; eassumption.
  - eapply N.mod_unique; eassumption.
Qed.

Lemma split_digits (a k : N) : (k <> 0 -> a = k * (a / k) + a mod k /\ a mod k < k)%N.
Proof. intro H. split; [apply N.div_mod; exact H | apply N.mod_lt; exact H]. Qed.

(** The four indices of a full group, in terms of the three bytes. *)
Lemma group3_indices (a b c : N) :
  (a < 256 -> b < 256 -> c < 256 ->
   let x := a * 65536 + b * 256 + c in
   sextet x 18 = a / 4
   /\ sextet x 12 = (a mod 4) * 16 + b / 16
   /\ sextet x 6 = (b mod 16) * 4 + c / 64
   /\ sextet x 0 = c mod 64)%N.
Proof.
  intros Ha Hb Hc x. rewrite !sextet_div.
  change (2 ^ 18)%N with 262144%N. change (2 ^ 12)%N with 4096%N.
  change (2 ^ 6)%N with 64%N. change (2 ^ 0)%N with 1%N.
  destruct (split_digits a 4) as [Ea Ha0]; [discriminate|].
  destruct (split_digits b 16) as [Eb Hb0]; [discriminate|].
  destruct (split_digits c 64) as [Ec Hc0]; [discriminate|].
  revert Ea Ha0 Eb Hb0 Ec Hc0.
  generalize (a / 4)%N (a mod 4)%N (b / 16)%N (b mod 16)%N (c / 64)%N (c mod 64)%N.
  intros a1 a0 b1 b0 c1 c0 Ea Ha0 Eb Hb0 Ec Hc0.
  assert (E18 : (x = 262144 * a1 + ((a0 * 16 + b1) * 4096 + (b0 * 4 + c1) * 64 + c0))%N)
    by (subst x; lia).
  assert (E12 : (x = 4096 * (a1 * 64 + (a0 * 16 + b1)) + ((b0 * 4 + c1) * 64 + c0))%N)
    by (subst x; lia).
  assert (E6 : (x = 64 * (a1 * 4096 + (a0 * 16 + b1) * 64 + (b0 * 4 + c1)) + c0)%N)
    by (subst x; lia).
  apply div_mod_digits in E18; [|lia]. apply div_mod_digits in E12; [|lia].
  apply div_mod_digits in E6; [|lia].
  destruct E18 as [-> _], E12 as [-> _], E6 as [E6 E6'].
  rewrite N.div_1_r, E6, E6'.
  split; [symmetry; apply N.mod_unique with 0%N; lia|].
  split; [symmetry; apply N.mod_unique with a1; lia|].
  split; [symmetry; apply N.mod_unique with (a1 * 64 + (a0 * 16 + b1))%N; lia|].
  reflexivity.
Qed.

(** The three indices of a final group of two bytes. *)
Lemma group2_indices (a b : N) :
  (a < 256 -> b < 256 ->
   let x := a * 256 + b in
   sextet x 10 = a / 4
   /\ sextet x 4 = (a mod 4) * 16 + b / 16
   /\ N.shiftl (N.land x 0xf) 2 = (b mod 16) * 4)%N.
Proof.
  intros Ha Hb x. rewrite !sextet_div, N.shiftl_mul_pow2.
  change 0xf%N with (N.ones 4). rewrite N.land_ones.
  change (2 ^ 10)%N with 1024%N. change (2 ^ 4)%N with 16%N. change (2 ^ 2)%N with 4%N.
  destruct (split_digits a 4) as [Ea Ha0]; [discriminate|].
  destruct (split_digits b 16) as [Eb Hb0]; [discriminate|].
  revert Ea Ha0 Eb Hb0.
  generalize (a / 4)%N (a mod 4)%N (b / 16)%N (b mod 16)%N.
  intros a1 a0 b1 b0 Ea Ha0 Eb Hb0.
  assert (E10 : (x = 1024 * a1 + ((a0 * 16 + b1) * 16 + b0))%N) by (subst x; lia).
  assert (E4 : (x = 16 * (a1 * 64 + (a0 * 16 + b1)) + b0)%N) by (subst x; lia).
  apply div_mod_digits in E10; [|lia]. apply div_mod_digits in E4; [|lia].
  destruct E10 as [-> _], E4 as [E4 E4'].
  rewrite E4, E4'.
  split; [symmetry; apply N.mod_unique with 0%N; lia|].
  split; [symmetry; apply N.mod_unique with a1; lia|].
  reflexivity.
Qed.

(** The two indices of a final group of one byte. *)
Lemma group1_indices (a : N) :
  (a < 256 ->
   sextet a 2 = a / 4 /\ N.shiftl (N.land a 0x3) 4 = (a mod 4) * 16)%N.
Proof.
  intros Ha. rewrite sextet_div, N.shiftl_mul_pow2.
  change 0x3%N with (N.ones 2). rewrite N.land_ones.
  change (2 ^ 2)%N with 4%N. change (2 ^ 4)%N with 16%N.
  split; [|reflexivity].
  apply N.mod_small. apply N.Div0.div_lt_upper_bound. lia.
Qed.

(** Bytes are recovered from their digits. *)
Lemma digits_inj (a a' b b' c c' : N) :
  (a / 4 = a' / 4 ->
   (a mod 4) * 16 + b / 16 = (a' mod 4) * 16 + b' / 16 ->
   (b mod 16) * 4 + c / 64 = (b' mod 16) * 4 + c' / 64 ->
   c mod 64 = c' mod 64 ->
   b < 256 -> b' < 256 -> c < 256 -> c' < 256 ->
   a = a' /\ b = b' /\ c = c')%N.
Proof.
  intros H1 H2 H3 H4 Hb Hb' Hc Hc'.
  destruct (split_digits a 4) as [Ea Ha0]; [discriminate|].
  destruct (split_digits a' 4) as [Ea' Ha0']; [discriminate|].
  destruct (split_digits b 16) as [Eb Hb0]; [discriminate|].
  destruct (split_digits b' 16) as [Eb' Hb0']; [discriminate|].
  destruct (split_digits c 64) as [Ec Hc0]; [discriminate|].
  destruct (split_digits c' 64) as [Ec' Hc0']; [discriminate|].
  revert H1 H2 H3 H4 Ea Ha0 Ea' Ha0' Eb Hb0 Eb' Hb0' Ec Hc0 Ec' Hc0'.
  generalize (a / 4)%N (a mod 4)%N (b / 16)%N (b mod 16)%N (c / 64)%N (c mod 64)%N
             (a' / 4)%N (a' mod 4)%N (b' / 16)%N (b' mod 16)%N (c' / 64)%N (c' mod 64)%N.
  intros. lia.
Qed.

Section Base64Injective.
Variable table : bytes.
Hypothesis table_index :
  forall i, (i < 64)%N -> b64_index table (b64_char table i) = i.
Hypothesis table_nopad :
  forall i, (i < 64)%N -> b64_char table i <> BASE64_PAD.

Lemma b64_char_inj (i j : N) :
  (i < 64)%N -> (j < 64)%N -> b64_char table i = b64_char table j -> i = j.
Proof.
  intros Hi Hj H. apply (f_equal (b64_index table)) in H.
  rewrite !table_index in H by assumption. exact H.
Qed.

Lemma group1_inj (a a' : byte) :
  b64_char table (sextet (Byte.to_N a) 2)
  = b64_char table (sextet (Byte.to_N a') 2) ->
  b64_char table (N.shiftl (N.land (Byte.to_N a) 0x3) 4)
  = b64_char table (N.shiftl (N.land (Byte.to_N a') 0x3) 4) ->
  a = a'.
Proof.
  intros H1 H2.
  apply b64_char_inj in H1; [|apply sextet_bound..].
  apply b64_char_inj in H2; [|apply low2_shift_bound..].
  pose proof (byte_to_N_lt a) as Ha. pose proof (byte_to_N_lt a') as Ha'.
  destruct (group1_indices _ Ha) as [E1 E2], (group1_indices _ Ha') as [E1' E2'].
  rewrite E1, E1' in H1. rewrite E2, E2' in H2.
  apply byte_to_N_inj.
  destruct (digits_inj (Byte.to_N a) (Byte.to_N a') 0 0 0 0) as (E & _);
    [exact H1 | cbn; lia | reflexivity | reflexivity | lia..|exact E].
Qed.

Lemma group2_inj (a b a' b' : byte) :
  let x := (Byte.to_N a * 256 + Byte.to_N b)%N in
  let x' := (Byte.to_N a' * 256 + Byte.to_N b')%N in
  b64_char table (sextet x 10) = b64_char table (sextet x' 10) ->
  b64_char table (sextet x 4) = b64_char table (sextet x' 4) ->
  b64_char table (N.shiftl (N.land x 0xf) 2)
  = b64_char table (N.shiftl (N.land x' 0xf) 2) ->
  a = a' /\ b = b'.
Proof.
  intros x x' H1 H2 H3.
  apply b64_char_inj in H1; [|apply sextet_bound..].
  apply b64_char_inj in H2; [|apply sextet_bound..].
  apply b64_char_inj in H3; [|apply low4_shift_bound..].
  pose proof (byte_to_N_lt a) as Ha. pose proof (byte_to_N_lt a') as Ha'.
  pose proof (byte_to_N_lt b) as Hb. pose proof (byte_to_N_lt b') as Hb'.
  destruct (group2_indices _ _ Ha Hb) as (E1 & E2 & E3).
  destruct (group2_indices _ _ Ha' Hb') as (E1' & E2' & E3').
  fold x in E1, E2, E3. fold x' in E1', E2', E3'.
  rewrite E1, E1' in H1. rewrite E2, E2' in H2. rewrite E3, E3' in H3.
  destruct (digits_inj (Byte.to_N a) (Byte.to_N a') (Byte.to_N b) (Byte.to_N b') 0 0)
    as (Ea & Eb & _);
    [exact H1 | exact H2 | cbn; lia | reflexivity | lia..|].
  split; apply byte_to_N_inj; assumption.
Qed.

Lemma group3_inj (a b c a' b' c' : byte) :
  let x := (Byte.to_N a * 65536 + Byte.to_N b * 256 + Byte.to_N c)%N in
  let x' := (Byte.to_N a' * 65536 + Byte.to_N b' * 256 + Byte.to_N c')%N in
  b64_char table (sextet x 18) = b64_char table (sextet x' 18) ->
  b64_char table (sextet x 12) = b64_char table (sextet x' 12) ->
  b64_char table (sextet x 6) = b64_char table (sextet x' 6) ->
  b64_char table (sextet x 0) = b64_char table (sextet x' 0) ->
  a = a' /\ b = b' /\ c = c'.
Proof.
  intros x x' H1 H2 H3 H4.
  apply b64_char_inj in H1; [|apply sextet_bound..].
  apply b64_char_inj in H2; [|apply sextet_bound..].
  apply b64_char_inj in H3; [|apply sextet_bound..].
  apply b64_char_inj in H4; [|apply sextet_bound..].
  pose proof (byte_to_N_lt a) as Ha. pose proof (byte_to_N_lt a') as Ha'.
  pose proof (byte_to_N_lt b) as Hb. pose proof (byte_to_N_lt b') as Hb'.
  pose proof (byte_to_N_lt c) as Hc. pose proof (byte_to_N_lt c') as Hc'.
  destruct (group3_indices _ _ _ Ha Hb Hc) as (E1 & E2 & E3 & E4).
  destruct (group3_indices _ _ _ Ha' Hb' Hc') as (E1' & E2' & E3' & E4').
  fold x in E1, E2, E3, E4. fold x' in E1', E2', E3', E4'.
  rewrite E1, E1' in H1. rewrite E2, E2' in H2.
  rewrite E3, E3' in H3. rewrite E4, E4' in H4.
  destruct (digits_inj _ _ _ _ _ _ H1 H2 H3 H4 Hb Hb' Hc Hc') as (Ea & Eb & Ec).
  split; [|split]; apply byte_to_N_inj; assumption.
Qed.

(** Two byte strings with the same encoding are the same. *)
Lemma b2a_base64_inj (s s' : bytes) :
  b2a_base64 table s = b2a_base64 table s' -> s = s'.
Proof.
  revert s'.
  induction s as [|a|a b|a b c s IH] using list_ind3;
    intros [|a' [|b' [|c' s']]] H; cbn [b2a_base64] in H;
    try reflexivity; try discriminate H.
  - injection H as H1 H2. f_equal. exact (group1_inj _ _ H1 H2).
  - exfalso. injection H as _ _ H3. symmetry in H3. revert H3.
    apply table_nopad, low4_shift_bound.
  - exfalso. injection H as _ _ H3. symmetry in H3. revert H3.
    apply table_nopad, sextet_bound.
  - exfalso. injection H as _ _ H3. revert H3.
    apply table_nopad, low4_shift_bound.
  - injection H as H1 H2 H3. destruct (group2_inj _ _ _ _ H1 H2 H3) as [-> ->].
    reflexivity.
  - exfalso. injection H as _ _ _ H4. symmetry in H4. revert H4.
    apply table_nopad, sextet_bound.
  - exfalso. injection H as _ _ H3. revert H3. apply table_nopad, sextet_bound.
  - exfalso. injection H as _ _ _ H4. revert H4. apply table_nopad, sextet_bound.
  - injection H as H1 H2 H3 H4 Hrest.
    destruct (group3_inj _ _ _ _ _ _ H1 H2 H3 H4) as (-> & -> & ->).
    f_equal. f_equal. f_equal. apply IH. exact Hrest.
Qed.

End Base64Injective.

Lemma table_b2a_base64_index (i : N) :
  (i < 64)%N -> b64_index table_b2a_base64 (b64_char table_b2a_base64 i) = i.
Proof.
  intro H. apply N.eqb_eq.
  apply (forall_below
           (fun i => N.eqb (b64_index table_b2a_base64 (b64_char table_b2a_base64 i)) i)
           64); [vm_compute; reflexivity | exact H].
Qed.

Lemma table_urlsafe_index (i : N) :
  (i < 64)%N -> b64_index table_urlsafe (b64_char table_urlsafe i) = i.
Proof.
  intro H. apply N.eqb_eq.
  apply (forall_below
           (fun i => N.eqb (b64_index table_urlsafe (b64_char table_urlsafe i)) i)
           64); [vm_compute; reflexivity | exact H].
Qed.

Lemma alphabet_char_nopad (b : byte) : alphabet_char b = true -> b <> BASE64_PAD.
Proof.
  intros H E. subst b. discriminate H.
Qed.

Lemma b64encode_inj (s s' : bytes) :
  b2a_base64 table_b2a_base64 s = b2a_base64 table_b2a_base64 s' -> s = s'.
Proof.
  apply b2a_base64_inj; [exact table_b2a_base64_index|].
  intros i Hi. apply alphabet_char_nopad, table_b2a_base64_chars.
  apply b64_char_In; [reflexivity | exact Hi].
Qed.

Lemma urlsafe_b64encode_inj (s s' : bytes) :
  b2a_base64 table_urlsafe s = b2a_base64 table_urlsafe s' -> s = s'.
Proof.
  apply b2a_base64_inj; [exact table_urlsafe_index|].
  intros i Hi. apply alphabet_char_nopad, table_urlsafe_chars.
  apply b64_char_In; [reflexivity | exact Hi].
Qed.

Lemma Ok_inj {A : Type} (a a' : A) : Ok a = Ok a' -> a = a'.
Proof. intro H. injection H as H. exact H. Qed.

(** X1. For every input the byte coercion accepts and either flag,
    [seq_md5], [seq_sha1] and [seq_sha512] return a text of 32, 40 and 128
    characters, each one of [0123456789abcdef]. *)
Theorem hex_digests_shape (seq : pyobj) (normalize : bool) :
  coercible seq ->
  (exists out, seq_md5 seq normalize = Ok out
               /\ length out = 32 /\ Forall (fun c => In c hex_digits) out)
  /\ (exists out, seq_sha1 seq normalize = Ok out
                  /\ length out = 40 /\ Forall (fun c => In c hex_digits) out)
  /\ (exists out, seq_sha512 seq normalize = Ok out
                  /\ length out = 128 /\ Forall (fun c => In c hex_digits) out).
Proof.
  intro Hc. apply to_binary_succeeds in Hc. destruct Hc as [b Hb].
  rewrite seq_md5_eq, seq_sha1_eq, seq_sha512_eq, Hb. cbn [bind].
  split_conj; eexists; (split; [reflexivity|]);
    rewrite hexlify_length, ?md5_digest_length, ?sha1_digest_length,
      ?sha512_digest_length; (split; [reflexivity | apply hexlify_chars]).
Qed.

Lemma hex_digests_shape_witness :
  exists out, seq_sha1 (PyStr (text "ac gt*")) true = Ok out
              /\ length out = 40 /\ Forall (fun c => In c hex_digits) out.
Proof.
  exact (proj1 (proj2 (hex_digests_shape (PyStr (text "ac gt*")) true eq_refl))).
Defined.

Lemma seguid_of_inj (d d' : bytes) :
  seguid_of d = seguid_of d' -> SHA1.digest d = SHA1.digest d'.
Proof.
  intro H. apply b64encode_inj, ascii_text_inj.
  destruct (seguid_of_shape d) as (E & _), (seguid_of_shape d') as (E' & _).
  rewrite E, E', H. reflexivity.
Qed.

(** X2. The seguid and the SHA-1 hex digest identify the same
    sequences: for any two inputs and flags, [seq_seguid] gives the same
    result on both exactly when [seq_sha1] does.  Neither encoding loses a
    bit of the digest, the stripped padding included. *)
Theorem seguid_agrees_with_sha1 (x y : pyobj) (nx ny : bool) :
  seq_seguid x nx = seq_seguid y ny <-> seq_sha1 x nx = seq_sha1 y ny.
Proof.
  rewrite !seq_seguid_eq, !seq_sha1_eq.
  destruct (_to_binary x) as [bx|ex], (_to_binary y) as [b_y|ey]; cbn [bind].
  - split; intro H; apply Ok_inj in H.
    + apply seguid_of_inj in H. rewrite H. reflexivity.
    + apply hexlify_inj in H. unfold seguid_of. rewrite H. reflexivity.
  - split; intro H; discriminate H.
  - split; intro H; discriminate H.
  - split; intro H; injection H as ->; reflexivity.
Qed.

Lemma seqhash_of_inj (d d' : bytes) (n : nat) :
  seqhash_of d n = seqhash_of d' n <->
  firstn n (SHA512.digest d) = firstn n (SHA512.digest d').
Proof.
  unfold seqhash_of. split; intro H.
  - apply urlsafe_b64encode_inj, ascii_text_inj. exact H.
  - rewrite H. reflexivity.
Qed.

(** X3. Two inputs with the same SHA-512 hex digest have the same
    seqhash, whatever [digest_size] is passed: the seqhash is read off the
    first 24 bytes of the same digest. *)
Theorem sha512_agreement_gives_seqhash (x y : pyobj) (nx ny : bool) (dx dy : Z) :
  seq_sha512 x nx = seq_sha512 y ny ->
  seq_seqhash x nx dx = seq_seqhash y ny dy.
Proof.
  rewrite !seq_sha512_eq, !seq_seqhash_eq.
  destruct (_to_binary x) as [bx|ex], (_to_binary y) as [b_y|ey]; cbn [bind];
    intro H.
  - apply Ok_inj, hexlify_inj in H.
    apply (f_equal (@Ok str)). apply seqhash_of_inj. rewrite H. reflexivity.
  - discriminate H.
  - discriminate H.
  - injection H as ->. reflexivity.
Qed.

Lemma sha512_agreement_gives_seqhash_witness :
  seq_seqhash (PyStr (text "ac gt")) true 24 = seq_seqhash (PyBytes (btext "ACGT")) false 32.
Proof.
  apply sha512_agreement_gives_seqhash. vm_compute. reflexivity.
Defined.

(** X4. Two inputs have the same seqhash exactly when the first 24
    bytes of the SHA-512 digests of the bytes hashed agree: the URL-safe
    encoding is one-to-one. *)
Theorem seqhash_agreement (bx b_y : bytes) (nx ny : bool) (dx dy : Z) :
  seq_seqhash (PyBytes bx) nx dx = seq_seqhash (PyBytes b_y) ny dy
  <-> firstn 24 (SHA512.digest (hashed_bytes nx bx))
      = firstn 24 (SHA512.digest (hashed_bytes ny b_y)).
Proof.
  rewrite !seq_seqhash_eq. cbn [_to_binary bind]. rewrite <- seqhash_of_inj.
  split; intro H; [apply Ok_inj; exact H | rewrite H; reflexivity].
Qed.

(** ** Normalizing before hashing *)

Lemma bind_Ok_r {A : Type} (r : result A) : (a <- r ;; Ok a) = r.
Proof. destruct r; reflexivity. Qed.

Lemma hashed_bytes_canonical (normalize : bool) (b : bytes) :
  hashed_bytes normalize (canonical_form b) = canonical_form b.
Proof. destruct normalize; [apply canonical_form_idem | reflexivity]. Qed.

(** X5. Hashing with [normalize=True] is normalizing first and then
    hashing the canonical bytes with either value of the flag: on bytes
    that [normalize_sequence] returned the flag makes no difference. *)
Theorem prenormalized_digests (x : pyobj) (normalize : bool) (digest_size : Z) :
  seq_seguid x true = (b <- normalize_sequence x ;; seq_seguid (PyBytes b) normalize)
  /\ seq_seqhash x true digest_size
     = (b <- normalize_sequence x ;; seq_seqhash (PyBytes b) normalize digest_size)
  /\ seq_md5 x true = (b <- normalize_sequence x ;; seq_md5 (PyBytes b) normalize)
  /\ seq_sha1 x true = (b <- normalize_sequence x ;; seq_sha1 (PyBytes b) normalize)
  /\ seq_sha512 x true = (b <- normalize_sequence x ;; seq_sha512 (PyBytes b) normalize).
Proof.
  rewrite normalize_sequence_eq.
  rewrite (seq_seguid_eq x), (seq_seqhash_eq x), (seq_md5_eq x), (seq_sha1_eq x),
    (seq_sha512_eq x).
  destruct (_to_binary x) as [b|e]; cbn [bind]; [|split_conj; reflexivity].
  rewrite seq_seguid_eq, seq_seqhash_eq, seq_md5_eq, seq_sha1_eq, seq_sha512_eq.
  cbn [_to_binary bind]. rewrite hashed_bytes_canonical.
  split_conj; reflexivity.
Qed.

(** X6. [normalize_sequence] distributes over concatenation, of bytes
    and of text: the canonical form of a concatenation is the
    concatenation of the canonical forms (and it raises when one part
    does). *)
Theorem normalize_sequence_concat :
  (forall b1 b2 : bytes,
      normalize_sequence (PyBytes (b1 ++ b2))
      = (c1 <- normalize_sequence (PyBytes b1) ;;
         c2 <- normalize_sequence (PyBytes b2) ;; Ok (c1 ++ c2)))
  /\ (forall s1 s2 : str,
         normalize_sequence (PyStr (s1 ++ s2))
         = (c1 <- normalize_sequence (PyStr s1) ;;
            c2 <- normalize_sequence (PyStr s2) ;; Ok (c1 ++ c2))).
Proof.
  split.
  - intros b1 b2. rewrite !normalize_sequence_bytes. cbn [bind].
    rewrite canonical_form_app. reflexivity.
  - exact normalize_str_app.
Qed.

(** ** Canonical bytes *)

Lemma canonical_byte_iff (y : byte) :
  canonical_byte y = true <-> is_deleted y = false /\ is_ascii_lower y = false.
Proof.
  unfold canonical_byte. rewrite andb_true_iff, !negb_true_iff. reflexivity.
Qed.

Lemma not_lower_upper (y : byte) : is_ascii_lower y = false -> ascii_upper y = y.
Proof. destruct y; intro H; try reflexivity; discriminate H. Qed.

Lemma canonical_form_canonical (b : bytes) :
  forallb canonical_byte (canonical_form b) = true.
Proof.
  apply forallb_forall. intros y Hy. apply canonical_byte_iff.
  exact (canonical_form_clean b y Hy).
Qed.

Lemma canonical_form_fixed (b : bytes) :
  canonical_form b = b <-> forallb canonical_byte b = true.
Proof.
  split.
  - intro H. rewrite <- H. apply canonical_form_canonical.
  - induction b as [|y b IH]; [reflexivity|].
    cbn [forallb]. rewrite andb_true_iff. intros [Hy Hb].
    apply canonical_byte_iff in Hy. destruct Hy as [Hd Hl].
    rewrite canonical_form_cons_kept by exact Hd.
    rewrite (not_lower_upper y Hl), (IH Hb). reflexivity.
Qed.

Lemma canonical_form_length (b : bytes) : length (canonical_form b) <= length b.
Proof.
  unfold canonical_form. rewrite length_map.
  apply subseq_length, subseq_remove_deleted.
Qed.

(** X7. What [normalize_sequence] returns for coerced bytes [b] holds
    no whitespace, no [*] and no letter a-z, is never longer than [b], and
    is [b] itself exactly when [b] already holds none of these bytes. *)
Theorem normalize_sequence_output (x : pyobj) (b : bytes) :
  _to_binary x = Ok b ->
  exists out,
    normalize_sequence x = Ok out
    /\ forallb canonical_byte out = true
    /\ length out <= length b
    /\ (out = b <-> forallb canonical_byte b = true).
Proof.
  intro H. rewrite normalize_sequence_eq, H. cbn [bind].
  exists (canonical_form b). split; [reflexivity|].
  split; [apply canonical_form_canonical|].
  split; [apply canonical_form_length | apply canonical_form_fixed].
Qed.

Lemma normalize_sequence_output_witness :
  exists out,
    normalize_sequence (PyStr (text "a c*")) = Ok out
    /\ forallb canonical_byte out = true
    /\ length out <= 4
    /\ (out = btext "a c*" <-> forallb canonical_byte (btext "a c*") = true).
Proof.
  exact (normalize_sequence_output (PyStr (text "a c*")) (btext "a c*") eq_refl).
Defined.

(** ** Edits and canonical forms *)

Lemma case_variant_byte_sym (c c' : byte) :
  case_variant_byte c c' = true -> case_variant_byte c' c = true.
Proof.
  unfold case_variant_byte. rewrite !andb_true_iff. intros [[H1 H2] H3].
  apply byte_eqb_eq in H3. rewrite H3.
  split; [split; assumption | apply Byte.byte_dec_lb; reflexivity].
Qed.

Lemma upper_case_variant (y : byte) :
  ascii_upper y <> y -> case_variant_byte y (ascii_upper y) = true.
Proof. destruct y; intro H; try reflexivity; exfalso; apply H; reflexivity. Qed.

Lemma edit_sym (l l' : bytes) :
  edit is_deleted case_variant_byte l l' -> edit is_deleted case_variant_byte l' l.
Proof.
  intros [pre c post Hc | pre c post Hc | pre c c' post Hc].
  - apply edit_remove. exact Hc.
  - apply edit_insert. exact Hc.
  - apply edit_case. apply case_variant_byte_sym. exact Hc.
Qed.

Lemma edit_cons (x : byte) (l l' : bytes) :
  edit is_deleted case_variant_byte l l' ->
  edit is_deleted case_variant_byte (x :: l) (x :: l').
Proof.
  intros [pre c post Hc | pre c post Hc | pre c c' post Hc].
  - exact (edit_insert is_deleted case_variant_byte (x :: pre) c post Hc).
  - exact (edit_remove is_deleted case_variant_byte (x :: pre) c post Hc).
  - exact (edit_case is_deleted case_variant_byte (x :: pre) c c' post Hc).
Qed.

Lemma bytes_edits_sym (l l' : bytes) : bytes_edits l l' -> bytes_edits l' l.
Proof.
  induction 1 as [l l' H | l | l l' l'' _ IH1 _ IH2].
  - apply rt_step, edit_sym, H.
  - apply rt_refl.
  - exact (rt_trans _ _ _ _ _ IH2 IH1).
Qed.

Lemma bytes_edits_cons (x : byte) (l l' : bytes) :
  bytes_edits l l' -> bytes_edits (x :: l) (x :: l').
Proof.
  induction 1 as [l l' H | l | l l' l'' _ IH1 _ IH2].
  - apply rt_step, edit_cons, H.
  - apply rt_refl.
  - exact (rt_trans _ _ _ _ _ IH1 IH2).
Qed.

Lemma bytes_edits_canonical (l l' : bytes) :
  bytes_edits l l' -> canonical_form l = canonical_form l'.
Proof.
  induction 1 as [l l' H | l | l l' l'' _ IH1 _ IH2].
  - apply edit_bytes_canonical, H.
  - reflexivity.
  - rewrite IH1. exact IH2.
Qed.

(** Every byte string is some edits away from its canonical form. *)
Lemma bytes_edits_to_canonical (b : bytes) : bytes_edits b (canonical_form b).
Proof.
  induction b as [|x b IH]; [apply rt_refl|].
  destruct (is_deleted x) eqn:Hx.
  - rewrite canonical_form_cons_deleted by exact Hx.
    eapply rt_trans; [|exact IH].
    apply rt_step. exact (edit_remove is_deleted case_variant_byte [] x b Hx).
  - rewrite canonical_form_cons_kept by exact Hx.
    eapply rt_trans; [apply bytes_edits_cons, IH|].
    destruct (Byte.byte_eq_dec (ascii_upper x) x) as [E|E].
    + rewrite E. apply rt_refl.
    + apply rt_step.
      exact (edit_case is_deleted case_variant_byte [] x (ascii_upper x)
               (canonical_form b) (upper_case_variant x E)).
Qed.

(** X8. Two byte sequences have the same canonical form exactly when
    one is obtained from the other by inserting and removing ASCII
    whitespace and [*] bytes and changing the case of ASCII letters. *)
Theorem same_canonical_form_iff_edits (b b' : bytes) :
  normalize_sequence (PyBytes b) = normalize_sequence (PyBytes b')
  <-> bytes_edits b b'.
Proof.
  rewrite !normalize_sequence_bytes. split.
  - intro H. apply Ok_inj in H.
    eapply rt_trans; [apply bytes_edits_to_canonical|].
    rewrite H. apply bytes_edits_sym, bytes_edits_to_canonical.
  - intro H. rewrite (bytes_edits_canonical _ _ H). reflexivity.
Qed.

(** ** Normalization and UTF-8 *)

Lemma to_N_byte_of_N (n : N) : Byte.to_N (byte_of_N n) = (n mod 256)%N.
Proof.
  unfold byte_of_N. destruct (Byte.of_N (n mod 256)) as [b|] eqn:E.
  - apply Byte.to_of_N. exact E.
  - apply Byte.of_N_None_iff in E.
    pose proof (N.mod_lt n 256). lia.
Qed.

Lemma high_byte_fixed (b : byte) :
  high_byte b = true -> is_deleted b = false /\ ascii_upper b = b.
Proof. destruct b; intro H; try discriminate H; split; reflexivity. Qed.

Lemma canonical_form_high (bs : bytes) :
  forallb high_byte bs = true -> canonical_form bs = bs.
Proof.
  induction bs as [|b bs IH]; [reflexivity|].
  cbn [forallb]. rewrite andb_true_iff. intros [Hb Hbs].
  destruct (high_byte_fixed b Hb) as [Hd Hu].
  rewrite canonical_form_cons_kept by exact Hd.
  rewrite Hu, (IH Hbs). reflexivity.
Qed.

Lemma utf8_cont_high (c shift : N) : high_byte (utf8_cont c shift) = true.
Proof.
  unfold utf8_cont.
  apply (forall_below (fun y => high_byte (byte_of_N (N.lor 0x80 y))) 64);
    [vm_compute; reflexivity | apply land_63_bound].
Qed.

Lemma shiftr_bound (c k q : N) : (c < 2 ^ k * q -> N.shiftr c k < q)%N.
Proof.
  intro H. rewrite N.shiftr_div_pow2. apply N.Div0.div_lt_upper_bound. exact H.
Qed.

Lemma utf8_lead2_high (c : N) :
  (c < 0x800)%N -> high_byte (byte_of_N (N.lor 0xC0 (N.shiftr c 6))) = true.
Proof.
  intro H.
  apply (forall_below (fun y => high_byte (byte_of_N (N.lor 0xC0 y))) 32);
    [vm_compute; reflexivity | apply shiftr_bound; exact H].
Qed.

Lemma utf8_lead3_high (c : N) :
  (c < 0x10000)%N -> high_byte (byte_of_N (N.lor 0xE0 (N.shiftr c 12))) = true.
Proof.
  intro H.
  apply (forall_below (fun y => high_byte (byte_of_N (N.lor 0xE0 y))) 16);
    [vm_compute; reflexivity | apply shiftr_bound; exact H].
Qed.

Lemma utf8_lead4_high (c : N) :
  (c < 0x110000)%N -> high_byte (byte_of_N (N.lor 0xF0 (N.shiftr c 18))) = true.
Proof.
  intro H.
  apply (forall_below (fun y => high_byte (byte_of_N (N.lor 0xF0 y))) 5);
    [vm_compute; reflexivity | apply shiftr_bound; change (2 ^ 18 * 5)%N with 1310720%N; lia].
Qed.

(** A character outside ASCII is encoded with bytes 0x80 and above only. *)
Lemma utf8_encode_char_high (c : N) (bs : bytes) :
  is_ascii c = false -> utf8_encode_char c = Ok bs -> forallb high_byte bs = true.
Proof.
  unfold is_ascii, utf8_encode_char. change 0x80%N with 128%N. intros ->.
  destruct (N.ltb_spec c 0x800) as [H2|_].
  { intro E. apply Ok_inj in E. subst bs. cbn [forallb].
    rewrite (utf8_lead2_high c H2), utf8_cont_high. reflexivity. }
  destruct (N.ltb_spec c 0x10000) as [H3|_].
  { destruct (is_surrogate c); intro E; [discriminate E|].
    apply Ok_inj in E. subst bs. cbn [forallb].
    rewrite (utf8_lead3_high c H3), !utf8_cont_high. reflexivity. }
  destruct (N.ltb_spec c 0x110000) as [H4|_]; intro E; [|discriminate E].
  apply Ok_inj in E. subst bs. cbn [forallb].
  rewrite (utf8_lead4_high c H4), !utf8_cont_high. reflexivity.
Qed.

Lemma ascii_upper_char (c : N) :
  is_ascii c = true -> ascii_upper (byte_of_N c) = byte_of_N (upper_char c).
Proof.
  intro H. apply byte_eqb_eq.
  apply (forall_below
           (fun c => Byte.eqb (ascii_upper (byte_of_N c)) (byte_of_N (upper_char c)))
           128); [vm_compute; reflexivity | apply N.ltb_lt; exact H].
Qed.

Lemma upper_char_ascii (c : N) : is_ascii (upper_char c) = is_ascii c.
Proof.
  unfold upper_char, is_ascii.
  destruct (N.leb_spec 97 c), (N.leb_spec c 122); cbn [andb]; try reflexivity.
  destruct (N.ltb_spec (c - 32) 128), (N.ltb_spec c 128); try reflexivity; lia.
Qed.

Lemma upper_char_high (c : N) : is_ascii c = false -> upper_char c = c.
Proof.
  unfold upper_char, is_ascii. intro H. apply N.ltb_ge in H.
  destruct (N.leb_spec 97 c), (N.leb_spec c 122); cbn [andb]; try reflexivity; lia.
Qed.

(** X9. Normalization respects characters: for every text, UTF-8
    encoding and then normalizing the bytes (what [normalize_sequence]
    does) is the UTF-8 encoding of the text with its ASCII whitespace and
    [*] characters dropped and a-z upper-cased.  No byte of a multi-byte
    character is deleted or changed, and a text that cannot be encoded
    raises on both sides. *)
Theorem normalize_sequence_text (s : str) :
  normalize_sequence (PyStr s) = str_encode (normalize_text s).
Proof.
  induction s as [|c s IH]; [reflexivity|].
  unfold normalize_text. cbn [filter]. unfold removable_char at 1.
  destruct (is_ascii c) eqn:Ha.
  - rewrite (normalize_str_cons_ascii c s Ha), IH. cbn [andb].
    destruct (is_deleted (byte_of_N c)) eqn:Hd; cbn [negb map].
    + rewrite canonical_form_cons_deleted by exact Hd.
      cbn [canonical_form remove_deleted filter map app]. apply bind_Ok_r.
    + rewrite canonical_form_cons_kept by exact Hd.
      rewrite str_encode_cons_ascii by (rewrite upper_char_ascii; exact Ha).
      rewrite (ascii_upper_char c Ha). reflexivity.
  - cbn [andb negb map]. rewrite (upper_char_high c Ha).
    change (c :: s) with ([c] ++ s). rewrite normalize_str_app, IH.
    change ([c] ++ map upper_char (filter (fun c0 => negb (removable_char c0)) s))
      with (c :: normalize_text s).
    rewrite normalize_sequence_eq. cbn [_to_binary str_encode bind].
    fold (normalize_text s).
    destruct (utf8_encode_char c) as [bs|e] eqn:E; cbn [bind]; [|reflexivity].
    rewrite app_nil_r, (canonical_form_high bs (utf8_encode_char_high c bs Ha E)).
    reflexivity.
Qed.

(** ** Text and bytes *)

Lemma str_encode_ascii (s : str) :
  ascii_str s = true -> str_encode s = Ok (map byte_of_N s).
Proof.
  induction s as [|c s IH]; [reflexivity|].
  unfold ascii_str. cbn [forallb]. rewrite andb_true_iff. intros [Hc Hs].
  rewrite (str_encode_cons_ascii c s Hc), (IH Hs). reflexivity.
Qed.

(** X10. A text and the bytes it encodes to are interchangeable: every
    function that coerces gives the same result on both, with either
    flag.  For an all-ASCII text these bytes are the character codes. *)
Theorem text_as_its_bytes (s : str) (b : bytes) (normalize : bool) (digest_size : Z) :
  _to_binary (PyStr s) = Ok b ->
  normalize_sequence (PyStr s) = normalize_sequence (PyBytes b)
  /\ seq_seguid (PyStr s) normalize = seq_seguid (PyBytes b) normalize
  /\ seq_seqhash (PyStr s) normalize digest_size
     = seq_seqhash (PyBytes b) normalize digest_size
  /\ seq_md5 (PyStr s) normalize = seq_md5 (PyBytes b) normalize
  /\ seq_sha1 (PyStr s) normalize = seq_sha1 (PyBytes b) normalize
  /\ seq_sha512 (PyStr s) normalize = seq_sha512 (PyBytes b) normalize
  /\ (ascii_str s = true -> b = map byte_of_N s).
Proof.
  intro H.
  rewrite !normalize_sequence_eq, !seq_seguid_eq, !seq_seqhash_eq, !seq_md5_eq,
    !seq_sha1_eq, !seq_sha512_eq, H.
  cbn [_to_binary bind]. split_conj; try reflexivity.
  intro Ha. cbn [_to_binary] in H. rewrite (str_encode_ascii s Ha) in H.
  apply Ok_inj in H. symmetry. exact H.
Qed.

Lemma text_as_its_bytes_witness :
  seq_sha1 (PyStr [233; 99]%N) true = seq_sha1 (PyBytes [xc3; xa9; x63]) true.
Proof.
  exact (proj1 (proj2 (proj2 (proj2 (proj2
    (text_as_its_bytes [233; 99]%N [xc3; xa9; x63] true 24 eq_refl)))))).
Defined.

(** ** Exceptions *)

Lemma coerced_outcome {B : Type} (x : pyobj) (f : bytes -> B) :
  returns_or_encode_error x (b <- _to_binary x ;; Ok (f b)).
Proof.
  unfold returns_or_encode_error.
  destruct (_to_binary x) as [b|e] eqn:E; cbn [bind].
  - left. eexists. reflexivity.
  - right. destruct x as [b|s]; cbn [_to_binary] in E; [discriminate E|].
    rewrite (str_encode_raises s e E). split; [reflexivity|].
    exists s. split; [reflexivity|].
    destruct (encodable s) eqn:Hs; [|reflexivity].
    apply str_encode_succeeds in Hs. destruct Hs as [a Ha].
    rewrite Ha in E. discriminate E.
Qed.

(** X11. The only exception [normalize_sequence] and the five
    [seq_] functions raise is [UnicodeEncodeError], and only for a text
    that is not encodable; the ASCII decoding of the base64 text and the
    hash constructors never raise inside them.  [sha512t] raises only
    [TypeError], and only for text. *)
Theorem exceptions_raised (x : pyobj) (normalize : bool) (digest_size : Z) :
  returns_or_encode_error x (normalize_sequence x)
  /\ returns_or_encode_error x (seq_seguid x normalize)
  /\ returns_or_encode_error x (seq_seqhash x normalize digest_size)
  /\ returns_or_encode_error x (seq_md5 x normalize)
  /\ returns_or_encode_error x (seq_sha1 x normalize)
  /\ returns_or_encode_error x (seq_sha512 x normalize)
  /\ ((exists out, sha512t x digest_size = Ok out)
      \/ (sha512t x digest_size = Raise TypeError /\ exists s, x = PyStr s)).
Proof.
  rewrite normalize_sequence_eq, seq_seguid_eq, seq_seqhash_eq, seq_md5_eq,
    seq_sha1_eq, seq_sha512_eq.
  split_conj; try apply coerced_outcome.
  destruct x as [b|s].
  - left. rewrite sha512t_bytes. eexists. reflexivity.
  - right. split; [reflexivity | exists s; reflexivity].
Qed.

(** ** Truncation *)

Lemma b2a_base64_app (table : bytes) (k : nat) (l1 l2 : bytes) :
  length l1 = 3 * k ->
  b2a_base64 table (l1 ++ l2) = b2a_base64 table l1 ++ b2a_base64 table l2.
Proof.
  revert l1. induction k as [|k IH]; intros l1 H.
  - destruct l1; [reflexivity | discriminate H].
  - destruct l1 as [|a [|b [|c l1]]]; cbn [length] in H; try lia.
    cbn [app b2a_base64]. rewrite IH by lia. reflexivity.
Qed.

(** X12. Truncated digests nest: for a [digest_size] that is a
    multiple of 3, what [sha512t] returns is an initial segment of what it
    returns for any larger [digest_size] on the same data. *)
Theorem sha512t_prefix (data : bytes) (k m : nat) :
  3 * k <= m ->
  exists short long,
    sha512t (PyBytes data) (Z.of_nat (3 * k)) = Ok short
    /\ sha512t (PyBytes data) (Z.of_nat m) = Ok long
    /\ is_prefix short long.
Proof.
  intro H. rewrite !sha512t_nat.
  exists (seqhash_of data (3 * k)), (seqhash_of data m).
  split; [reflexivity|]. split; [reflexivity|].
  unfold seqhash_of, is_prefix.
  destruct (Nat.le_gt_cases (3 * k) 64) as [Hk|Hk].
  - exists (ascii_text (b2a_base64 table_urlsafe
                          (skipn (3 * k) (firstn m (SHA512.digest data))))).
    rewrite <- ascii_text_app.
    rewrite <- (b2a_base64_app table_urlsafe k)
      by (rewrite firstn_digest_length; lia).
    rewrite <- (firstn_skipn (3 * k) (firstn m (SHA512.digest data))) at 1.
    rewrite firstn_firstn, Nat.min_l by exact H. reflexivity.
  - exists []. rewrite app_nil_r.
    rewrite !firstn_all2 by (rewrite sha512_digest_length; lia). reflexivity.
Qed.

Lemma sha512t_prefix_witness :
  exists short long,
    sha512t (PyBytes (btext "ACGT")) (Z.of_nat (3 * 8)) = Ok short
    /\ sha512t (PyBytes (btext "ACGT")) (Z.of_nat 64) = Ok long
    /\ is_prefix short long.
Proof. apply (sha512t_prefix (btext "ACGT") 8 64). lia. Defined.

Lemma slice_digest (data : bytes) (digest_size : Z) :
  slice_to (SHA512.digest data) digest_size
  = firstn (Z.to_nat (if digest_size <? 0 then Z.max 0 (64 + digest_size)
                      else Z.min digest_size 64)%Z)
           (SHA512.digest data).
Proof. unfold slice_to. rewrite sha512_digest_length. reflexivity. Qed.

Lemma b64_length_bound (n : nat) :
  n <= 64 -> b64_length n <= 88 /\ b64_length n mod 4 = 0.
Proof.
  intro H. unfold b64_length. split.
  - assert (Hq : (n + 2) / 3 <= 66 / 3) by (apply Nat.Div0.div_le_mono; lia).
    change (66 / 3) with 22 in Hq. lia.
  - rewrite Nat.mul_comm. apply Nat.Div0.mod_mul.
Qed.

(** X13. The range of [digest_size]: whatever integer is passed,
    [sha512t] returns at most 88 characters, a multiple of 4.  From 64
    upwards the whole digest is encoded (88 characters); 0, and -64 and
    below, give the empty text; a negative value above -64 drops that
    many bytes from the end of the digest. *)
Theorem sha512t_digest_size_range (data : bytes) (digest_size : Z) :
  exists out,
    sha512t (PyBytes data) digest_size = Ok out
    /\ length out <= 88
    /\ length out mod 4 = 0
    /\ ((64 <= digest_size)%Z -> out = seqhash_of data 64 /\ length out = 88)
    /\ ((digest_size = 0 \/ digest_size <= -64)%Z -> out = [])
    /\ ((-64 < digest_size < 0)%Z ->
        out = seqhash_of data (64 - Z.to_nat (- digest_size))).
Proof.
  rewrite sha512t_bytes, slice_digest. eexists. split; [reflexivity|].
  fold (seqhash_of data
          (Z.to_nat (if (digest_size <? 0)%Z then Z.max 0 (64 + digest_size)
                     else Z.min digest_size 64))).
  set (n := Z.to_nat _).
  destruct (seqhash_of_shape data n) as (_ & Hlen & _).
  assert (Hn : n <= 64) by (subst n; destruct (Z.ltb_spec digest_size 0); lia).
  rewrite Hlen, Nat.min_l by exact Hn.
  destruct (b64_length_bound n Hn) as [Hb Hm].
  split; [exact Hb|]. split; [exact Hm|]. split; [|split].
  - intro H. assert (E : n = 64)
      by (subst n; destruct (Z.ltb_spec digest_size 0); lia).
    rewrite E. split; reflexivity.
  - intro H. assert (E : n = 0)
      by (subst n; destruct (Z.ltb_spec digest_size 0); lia).
    rewrite E. reflexivity.
  - intro H. assert (E : n = 64 - Z.to_nat (- digest_size))
      by (subst n; destruct (Z.ltb_spec digest_size 0); lia).
    rewrite E. reflexivity.
Qed.

(** ** Alphabets *)

Lemma ascii_text_chars (table body : bytes) :
  Forall (fun c => In c table) body ->
  Forall (fun c => In c (ascii_text table)) (ascii_text body).
Proof.
  intro H. unfold ascii_text. apply Forall_map.
  eapply Forall_impl; [|exact H]. intros c Hc. apply in_map. exact Hc.
Qed.

Lemma seguid_of_chars (data : bytes) :
  Forall (fun c => In c (ascii_text table_b2a_base64)) (seguid_of data).
Proof.
  destruct (b2a_base64_shape table_b2a_base64 eq_refl (SHA1.digest data))
    as (body & Hb & Hall).
  unfold seguid_of. rewrite Hb, ascii_text_app, ascii_text_pad.
  rewrite str_rstrip_padding.
  - apply ascii_text_chars. exact Hall.
  - apply not_In_ascii_text. eapply Forall_impl; [|exact Hall].
    exact table_b2a_base64_chars.
Qed.

Lemma seqhash_of_chars (data : bytes) :
  Forall (fun c => In c (ascii_text table_urlsafe)) (seqhash_of data 24).
Proof.
  destruct (seqhash_of_shape data 24) as ((body & Hb & Hall & _) & _).
  rewrite Hb. change (pad_count (Nat.min 24 64)) with 0.
  cbn [repeat]. rewrite app_nil_r. apply ascii_text_chars. exact Hall.
Qed.

(** X14. For every input the coercion accepts, each character of a
    seqhash is one of the 64 URL-safe characters A-Z a-z 0-9 - _ (so never
    [+], [/] or [=]), and each character of a seguid is one of the 64
    standard characters A-Z a-z 0-9 + /. *)
Theorem digest_alphabets (seq : pyobj) (normalize : bool) (digest_size : Z) :
  coercible seq ->
  (exists out,
      seq_seqhash seq normalize digest_size = Ok out
      /\ Forall (fun c => In c (ascii_text table_urlsafe)) out)
  /\ (exists out,
         seq_seguid seq normalize = Ok out
         /\ Forall (fun c => In c (ascii_text table_b2a_base64)) out)
  /\ ~ In (N_of_ascii "+") (ascii_text table_urlsafe)
  /\ ~ In (N_of_ascii "/") (ascii_text table_urlsafe)
  /\ ~ In EQUALS (ascii_text table_urlsafe).
Proof.
  intro Hc. apply to_binary_succeeds in Hc. destruct Hc as [b Hb].
  rewrite seq_seqhash_eq, seq_seguid_eq, Hb. cbn [bind].
  split; [eexists; split; [reflexivity | apply seqhash_of_chars]|].
  split; [eexists; split; [reflexivity | apply seguid_of_chars]|].
  assert (H : forall c, mem_N c (ascii_text table_urlsafe) = false ->
                        ~ In c (ascii_text table_urlsafe)).
  { intros c Hm Hin. unfold mem_N in Hm.
    assert (Ht : existsb (N.eqb c) (ascii_text table_urlsafe) = true).
    { apply existsb_exists. exists c. split; [exact Hin | apply N.eqb_refl]. }
    rewrite Ht in Hm. discriminate Hm. }
  split_conj; apply H; reflexivity.
Qed.

Lemma digest_alphabets_witness :
  exists out,
    seq_seqhash (PyStr (text "ac gt")) true 24 = Ok out
    /\ Forall (fun c => In c (ascii_text table_urlsafe)) out.
Proof.
  exact (proj1 (digest_alphabets (PyStr (text "ac gt")) true 24 eq_refl)).
Defined.

(** ** The documentation's examples *)

(** X15. The examples in the docstrings of [seq_md5], [seq_sha1] and
    [seq_sha512], and the [normalize=False] examples of [seq_seguid] and
    [seq_seqhash], evaluate as documented. *)
Theorem docstring_examples :
  seq_seguid (PyStr (text "acgt")) false = Ok (text "lII0AoG1/I8qKY271rgv5CFZtsU")
  /\ seq_seqhash (PyStr (text "acgt")) false default_digest_size
     = Ok (text "eFwawHHdibaZBDcs9kW3gm31h1NNJcQe")
  /\ seq_md5 (PyStr (text "")) true = Ok (text "d41d8cd98f00b204e9800998ecf8427e")
  /\ seq_md5 (PyStr (text "ACGT")) true = Ok (text "f1f8f4bf413b16ad135722aa4591043e")
  /\ seq_md5 (PyStr (text "acgt")) false = Ok (text "db516c3913e179338b162b2476d1c23f")
  /\ seq_sha1 (PyStr (text "")) true
     = Ok (text "da39a3ee5e6b4b0d3255bfef95601890afd80709")
  /\ seq_sha1 (PyStr (text "ACGT")) true
     = Ok (text "2108994e17f6cca9ff2352ada92b6511db076034")
  /\ seq_sha1 (PyStr (text "acgt")) true
     = Ok (text "2108994e17f6cca9ff2352ada92b6511db076034")
  /\ seq_sha1 (PyStr (text "acgt")) false
     = Ok (text "9482340281b5fc8f2a298dbbd6b82fe42159b6c5")
  /\ seq_sha512 (PyStr (text "")) true
     = Ok (text "cf83e1357eefb8bdf1542850d66d8007d620e4050b5715dc83f4a921d36ce9ce47d0d13c5d85f2b0ff8318d2877eec2f63b931bd47417a81a538327af927da3e")
  /\ seq_sha512 (PyStr (text "ACGT")) true
     = Ok (text "68a178f7c740c5c240aa67ba41843b119d3bf9f8b0f0ac36cf701d26672964efbd536d197f51ce634fc70634d1eefe575bec34c83247abc52010f6e2bbdb8253")
  /\ seq_sha512 (PyStr (text "acgt")) true
     = Ok (text "68a178f7c740c5c240aa67ba41843b119d3bf9f8b0f0ac36cf701d26672964efbd536d197f51ce634fc70634d1eefe575bec34c83247abc52010f6e2bbdb8253")
  /\ seq_sha512 (PyStr (text "acgt")) false
     = Ok (text "785c1ac071dd89b69904372cf645b7826df587534d25c41edb2862e54fb2940d697218f2883d2bf1a11cdaee658c7f7ab945a1cfd08eb26cbce57ee88790250a").
Proof. split_conj; vm_compute; reflexivity. Qed.

(** ** The canonical form under edits *)

(** X16. Inputs that differ only in the placement of ASCII whitespace
    and [*] characters and in the case of ASCII letters, bytes or text,
    have the same canonical form: [normalize_sequence] gives the same
    result on both. *)
Theorem normalize_sequence_invariant (x y : pyobj) :
  seq_edits x y -> normalize_sequence x = normalize_sequence y.
Proof. exact (seq_edits_normalize x y). Qed.

Lemma normalize_sequence_invariant_witness :
  normalize_sequence (PyBytes (btext "a*")) = normalize_sequence (PyBytes (btext "A")).
Proof.
  apply normalize_sequence_invariant.
  apply rt_trans with (y := PyBytes (btext "a")).
  - apply rt_step, seq_edit_bytes.
    exact (edit_remove is_deleted case_variant_byte [x61] x2a [] eq_refl).
  - apply rt_step, seq_edit_bytes.
    exact (edit_case is_deleted case_variant_byte [] x61 x41 [] eq_refl).
Defined.
